(** * The textured-cube sample (src/pages/samples/texturedCube.ts)

    A shallow embedding of the sample's [init] function, of the
    [getTransformationMatrix] and [frame] closures it builds, and of the two
    shader pairs it ships, followed by the properties of the sample.

    JavaScript numbers are IEEE binary64 values: they are Rocq's primitive
    floats.  The browser's [Math.sin], [Math.cos], the gl-matrix package and
    the GPU's arithmetic are imported interfaces: they are type classes here,
    and every property is proved for all of their instances.  JavaScript
    objects that the code mutates (typed arrays, the render-pass descriptor)
    live in a store indexed by references, so that aliasing is visible.  The
    WebGPU device is observed through the sequence of calls made on it. *)

From Stdlib Require Import ZArith QArith Uint63 Floats.
From stdpp Require Import base option list gmap strings.

Set Default Proof Using "Type".
Local Open Scope Z_scope.

(** ** JavaScript numbers *)

Module Number.

(** [Math.PI], the binary64 value nearest to pi. *)
Definition PI : float := 0x1.921fb54442d18p+1%float.

(** A WebIDL [unsigned long] (canvas.width, canvas.height) read as a
    Number; the conversion is exact on the whole range of the type. *)
Definition of_ulong (n : N) : float :=
  PrimFloat.of_uint63 (Uint63.of_Z (Z.of_N n)).

End Number.

(** The part of the browser's [Math] object whose results the language
    standard leaves to the implementation. *)
Class JSMath := {
  Math_sin : float -> float;
  Math_cos : float -> float;
}.

(** [Math.abs] is exact. *)
Definition Math_abs (x : float) : float := PrimFloat.abs x.

(** ** The gl-matrix interface

    [mat4v] and [vec3v] are the contents of a 16-element and of a 3-element
    [Float32Array].  Each function gives the contents that the library call
    of the same name leaves in its [out] argument, from the contents of its
    input arguments. *)
Class GlMatrix := {
  mat4v : Type;
  vec3v : Type;
  mat4_create_v : mat4v;
  vec3_fromValues_v : float -> float -> float -> vec3v;
  mat4_perspective_v : float -> float -> float -> float -> mat4v;
  mat4_translate_v : mat4v -> vec3v -> mat4v;
  mat4_rotate_v : mat4v -> float -> vec3v -> mat4v;
  mat4_multiply_v : mat4v -> mat4v -> mat4v;
}.

(** ** WebGPU values

    References to JavaScript objects and handles of device objects are
    numbers handed out in order of creation. *)
Definition loc := nat.
Definition handle := nat.

Module GPUBufferUsage.
Definition COPY_DST : Z := 0x0008.
Definition VERTEX : Z := 0x0020.
Definition UNIFORM : Z := 0x0040.
End GPUBufferUsage.

Module GPUTextureUsage.
Definition COPY_DST : Z := 0x02.
Definition SAMPLED : Z := 0x04.
Definition RENDER_ATTACHMENT : Z := 0x10.
End GPUTextureUsage.

Module GPUShaderStage.
Definition VERTEX : Z := 0x1.
Definition FRAGMENT : Z := 0x2.
End GPUShaderStage.

Inductive GPUTextureFormat := bgra8unorm | rgba8unorm | depth24plus_stencil8.
Inductive GPUVertexFormat := float32x2 | float32x3 | float32x4.
Inductive GPUPrimitiveTopology :=
  point_list | line_list | line_strip | triangle_list | triangle_strip.
Inductive GPUCullMode := cull_none | cull_front | cull_back.
Inductive GPUCompareFunction :=
  cmp_never | cmp_less | cmp_equal | cmp_less_equal
| cmp_greater | cmp_not_equal | cmp_greater_equal | cmp_always.
Inductive GPUStoreOp := op_store | op_clear.
Inductive GPUFilterMode := nearest | linear.
Inductive GPUBufferBindingType := uniform | storage | read_only_storage.
Inductive GPUSamplerBindingType := filtering | non_filtering | comparison.
Inductive GPUTextureSampleType := sample_float | sample_depth | sample_sint | sample_uint.

(** A load value is either the string 'load' or the value to clear to. *)
Inductive LoadValue (A : Type) := load | clear_to (a : A).
Arguments load {A}.
Arguments clear_to {A} a.

Record GPUColor := { r : float; g : float; b : float; alpha : float }.

(** The four shader sources of the file, and the stage handed to
    [glslang.compileGLSL] by the [transform] of a GLSL module. *)
Inductive ShaderStage := stage_vertex | stage_fragment.
Inductive ShaderCode :=
  glslShaders_vertex | glslShaders_fragment
| wgslShaders_vertex | wgslShaders_fragment.

Record GPUShaderModuleDescriptor := {
  code : ShaderCode;
  transform : option ShaderStage;
}.

Record GPUSwapChainDescriptor := {
  swap_device : handle;
  swap_format : GPUTextureFormat;
}.

Record GPUBufferDescriptor := {
  buf_size : Z;
  buf_usage : Z;
  mappedAtCreation : option bool;
}.

Inductive GPUBindingLayout :=
| layout_buffer (type : GPUBufferBindingType)
| layout_sampler (type : GPUSamplerBindingType)
| layout_texture (sampleType : GPUTextureSampleType).

Record GPUBindGroupLayoutEntry := {
  layout_binding : Z;
  visibility : Z;
  layout_resource : GPUBindingLayout;
}.

Record GPUVertexAttribute := {
  shaderLocation : Z;
  offset : Z;
  format : GPUVertexFormat;
}.

Record GPUVertexBufferLayout := {
  arrayStride : Z;
  attributes : list GPUVertexAttribute;
}.

Record GPUVertexState := {
  vertex_module : handle;
  vertex_entryPoint : string;
  buffers : list GPUVertexBufferLayout;
}.

Record GPUFragmentState := {
  fragment_module : handle;
  fragment_entryPoint : string;
  targets : list GPUTextureFormat;
}.

Record GPUPrimitiveState := {
  topology : GPUPrimitiveTopology;
  cullMode : GPUCullMode;
}.

Record GPUDepthStencilState := {
  depthWriteEnabled : bool;
  depthCompare : GPUCompareFunction;
  depth_format : GPUTextureFormat;
}.

Record GPURenderPipelineDescriptor := {
  layout : handle;
  vertex : GPUVertexState;
  fragment : GPUFragmentState;
  primitive : GPUPrimitiveState;
  depthStencil : GPUDepthStencilState;
}.

(** A texture size is written as a dictionary or as a sequence. *)
Inductive GPUExtent3D :=
| extent_dict (width height : N)
| extent_seq (dims : list N).

Record GPUTextureDescriptor := {
  tex_size : GPUExtent3D;
  tex_format : GPUTextureFormat;
  tex_usage : Z;
}.

Record GPUSamplerDescriptor := {
  magFilter : GPUFilterMode;
  minFilter : GPUFilterMode;
}.

Inductive GPUBindingResource :=
| resource_buffer (buffer : handle)
| resource_sampler (sampler : handle)
| resource_view (view : handle).

Record GPUBindGroupEntry := {
  binding : Z;
  resource : GPUBindingResource;
}.

Record GPUBindGroupDescriptor := {
  group_layout : handle;
  entries : list GPUBindGroupEntry;
}.

(** The color attachment of the sample names no [storeOp]: the field is
    optional and the API's default applies. *)
Record GPURenderPassColorAttachment := {
  attachment : option handle;
  loadValue : LoadValue GPUColor;
  storeOp : option GPUStoreOp;
}.

Record GPURenderPassDepthStencilAttachment := {
  depth_attachment : handle;
  depthLoadValue : LoadValue float;
  depthStoreOp : GPUStoreOp;
  stencilLoadValue : LoadValue Z;
  stencilStoreOp : GPUStoreOp;
}.

Record GPURenderPassDescriptor := {
  colorAttachments : list GPURenderPassColorAttachment;
  depthStencilAttachment : GPURenderPassDepthStencilAttachment;
}.

(** The default of [GPURenderPassColorAttachment.storeOp] in the WebGPU
    interface definition. *)
Definition effective_storeOp (o : option GPUStoreOp) : GPUStoreOp :=
  default op_store o.

Definition vertexFormatSize (f : GPUVertexFormat) : Z :=
  match f with float32x2 => 8 | float32x3 => 12 | float32x4 => 16 end.

(** ** The cube mesh *)

Module cube.

(** Modelled from the spec: the module meshes/cube is not among the
    sources.  A vertex is a position of four floats followed by a UV of two
    floats; the values are left open. *)
Record Vertex := {
  position : float * float * float * float;
  uv : float * float;
}.

(** Modelled from the spec: the cube has 36 vertices, without indexing. *)
Definition cubeVertexCount : nat := 36.

(** Modelled from the spec: the vertex stride is one position (4 x float32)
    plus one UV (2 x float32), in bytes. *)
Definition cubeVertexSize : Z := 4 * 4 + 4 * 2.

(** Modelled from the spec: the position comes first in a vertex. *)
Definition cubePositionOffset : Z := 0.

(** Modelled from the spec: the UV follows the four floats of the position. *)
Definition cubeUVOffset : Z := 4 * 4.

(** Modelled from the spec: the six floats of one interleaved vertex. *)
Definition interleaved (v : Vertex) : list float :=
  let '(x, y, z, w) := position v in
  let '(s, t) := uv v in
  [x; y; z; w; s; t].

(** Modelled from the spec: the elements of the [Float32Array]
    [cubeVertexArray], the interleaved vertices in order. *)
Definition cubeVertexArray (vs : vec Vertex cubeVertexCount) : list float :=
  vec_to_list vs ≫= interleaved.

End cube.

(** [byteLength] of a [Float32Array] with the given elements. *)
Definition elements_byteLength (l : list float) : Z := 4 * Z.of_nat (length l).

(** ** The sample *)

Record HTMLCanvasElement := { canvas_width : N; canvas_height : N }.
Record ImageBitmap := { bitmap_width : N; bitmap_height : N }.

Section Sample.
Context `{JSMath} `{GlMatrix}.
Variable cubeVertices : vec cube.Vertex cube.cubeVertexCount.

(** *** JavaScript objects and device calls *)

Inductive Float32Array :=
| f32x16 (m : mat4v)
| f32x3 (v : vec3v).

Definition byteLength (t : Float32Array) : Z :=
  match t with f32x16 _ => 4 * 16 | f32x3 _ => 4 * 3 end.

(** Every typed array of the sample is created by [new Float32Array(n)] and
    starts at the beginning of the [ArrayBuffer] it owns. *)
Definition byteOffset (t : Float32Array) : Z := 0.

Inductive JSObject :=
| typed (t : Float32Array)
| descriptor (d : GPURenderPassDescriptor).

Inductive GPUCall :=
| requestAdapter (adapter : handle)
| requestDevice (adapter device : handle)
| getContext (context : handle)
| configureSwapChain (context : handle) (d : GPUSwapChainDescriptor) (swapChain : handle)
| createBuffer (d : GPUBufferDescriptor) (buffer : handle)
| setMappedRange (buffer : handle) (data : list float)
| unmap (buffer : handle)
| createBindGroupLayout (entries : list GPUBindGroupLayoutEntry) (layout : handle)
| createPipelineLayout (bindGroupLayouts : list handle) (layout : handle)
| createShaderModule (d : GPUShaderModuleDescriptor) (module : handle)
| createRenderPipeline (d : GPURenderPipelineDescriptor) (pipeline : handle)
| createTexture (d : GPUTextureDescriptor) (texture : handle)
| createView (texture view : handle)
| copyImageBitmapToTexture (source : ImageBitmap) (texture : handle) (copySize : list N)
| createSampler (d : GPUSamplerDescriptor) (sampler : handle)
| getBindGroupLayout (pipeline : handle) (index : Z) (layout : handle)
| createBindGroup (d : GPUBindGroupDescriptor) (group : handle)
| writeBuffer (buffer : handle) (bufferOffset : Z) (data : Float32Array) (dataOffset size : Z)
| getCurrentTexture (swapChain texture : handle)
| createCommandEncoder (encoder : handle)
| beginRenderPass (encoder : handle) (d : GPURenderPassDescriptor) (pass : handle)
| setPipeline (pass pipeline : handle)
| setBindGroup (pass : handle) (index : Z) (group : handle)
| setVertexBuffer (pass : handle) (slot : Z) (buffer : handle)
| setIndexBuffer (pass buffer : handle)
| draw (pass : handle) (vertexCount instanceCount firstVertex firstInstance : Z)
| drawIndexed (pass : handle) (indexCount instanceCount firstIndex baseVertex firstInstance : Z)
| endPass (pass : handle)
| finish (encoder commandBuffer : handle)
| submit (commandBuffers : list handle)
| destroy (object : handle).

(** The state a call of [init] or [frame] runs in: the JavaScript objects
    by reference, the next free reference and handle, and the calls made on
    the device so far, oldest first. *)
Record World := {
  store : gmap loc JSObject;
  next_loc : loc;
  next_handle : handle;
  calls : list GPUCall;
}.

Definition World0 : World :=
  {| store := ∅; next_loc := 0%nat; next_handle := 0%nat; calls := [] |}.

(** A computation either throws ([None]) or returns a value and a state. *)
Definition JS (A : Type) : Type := World → option (A * World).

#[export] Instance JS_ret : MRet JS := λ A x w, Some (x, w).
#[export] Instance JS_bind : MBind JS :=
  λ A B f c w, match c w with Some (x, w') => f x w' | None => None end.

Definition throw {A} : JS A := λ _, None.

Definition new_object (o : JSObject) : JS loc := λ w,
  Some (next_loc w,
        {| store := <[next_loc w := o]> (store w); next_loc := S (next_loc w);
           next_handle := next_handle w; calls := calls w |}).

Definition read (l : loc) : JS JSObject := λ w,
  match store w !! l with Some o => Some (o, w) | None => None end.

Definition write (l : loc) (o : JSObject) : JS unit := λ w,
  Some ((), {| store := <[l := o]> (store w); next_loc := next_loc w;
               next_handle := next_handle w; calls := calls w |}).

Definition call (c : GPUCall) : JS unit := λ w,
  Some ((), {| store := store w; next_loc := next_loc w;
               next_handle := next_handle w; calls := calls w ++ [c] |}).

(** A device call that returns a new object. *)
Definition create (c : handle → GPUCall) : JS handle := λ w,
  Some (next_handle w,
        {| store := store w; next_loc := next_loc w;
           next_handle := S (next_handle w); calls := calls w ++ [c (next_handle w)] |}).

Definition read_mat4 (l : loc) : JS mat4v :=
  o ← read l; match o with typed (f32x16 m) => mret m | _ => throw end.

Definition read_vec3 (l : loc) : JS vec3v :=
  o ← read l; match o with typed (f32x3 v) => mret v | _ => throw end.

Definition read_typed (l : loc) : JS Float32Array :=
  o ← read l; match o with typed t => mret t | _ => throw end.

Definition read_descriptor (l : loc) : JS GPURenderPassDescriptor :=
  o ← read l; match o with descriptor d => mret d | _ => throw end.

(** *** gl-matrix calls on stored arrays

    Each call reads its inputs, then stores the result in [out], which may
    be one of the inputs, and returns [out]. *)

Definition mat4_create : JS loc :=
  new_object (typed (f32x16 mat4_create_v)).

Definition vec3_fromValues (x y z : float) : JS loc :=
  new_object (typed (f32x3 (vec3_fromValues_v x y z))).

Definition mat4_perspective (out : loc) (fovy aspect near far : float) : JS loc :=
  _ ← read_mat4 out;
  write out (typed (f32x16 (mat4_perspective_v fovy aspect near far)));;
  mret out.

Definition mat4_translate (out a v : loc) : JS loc :=
  _ ← read_mat4 out;
  ma ← read_mat4 a;
  vv ← read_vec3 v;
  write out (typed (f32x16 (mat4_translate_v ma vv)));;
  mret out.

Definition mat4_rotate (out a : loc) (rad : float) (axis : loc) : JS loc :=
  _ ← read_mat4 out;
  ma ← read_mat4 a;
  vaxis ← read_vec3 axis;
  write out (typed (f32x16 (mat4_rotate_v ma rad vaxis)));;
  mret out.

Definition mat4_multiply (out a b : loc) : JS loc :=
  _ ← read_mat4 out;
  ma ← read_mat4 a;
  mb ← read_mat4 b;
  write out (typed (f32x16 (mat4_multiply_v ma mb)));;
  mret out.

(** *** init

    The constants of [init]'s scope that the closures and the properties
    refer to. *)
Record Env := {
  device : handle;
  projectionMatrix : loc;
  swapChain : handle;
  verticesBuffer : handle;
  pipeline : handle;
  depthTexture : handle;
  renderPassDescriptor : loc;
  uniformBuffer : handle;
  cubeTexture : handle;
  sampler : handle;
  uniformBindGroup : handle;
}.

Definition aspect (canvas : HTMLCanvasElement) : float :=
  Math_abs (Number.of_ulong (canvas_width canvas) / Number.of_ulong (canvas_height canvas)).

Definition fovy : float := ((2 * Number.PI) / 5)%float.

Definition uniformBufferSize : Z := 4 * 16.

Definition bindGroupLayout_entries : list GPUBindGroupLayoutEntry :=
  [ {| layout_binding := 0; visibility := GPUShaderStage.VERTEX;
       layout_resource := layout_buffer uniform |};
    {| layout_binding := 1; visibility := GPUShaderStage.FRAGMENT;
       layout_resource := layout_sampler filtering |};
    {| layout_binding := 2; visibility := GPUShaderStage.FRAGMENT;
       layout_resource := layout_texture sample_float |} ].

Definition vertex_shader_descriptor (useWGSL : bool) : GPUShaderModuleDescriptor :=
  if useWGSL
  then {| code := wgslShaders_vertex; transform := None |}
  else {| code := glslShaders_vertex; transform := Some stage_vertex |}.

Definition fragment_shader_descriptor (useWGSL : bool) : GPUShaderModuleDescriptor :=
  if useWGSL
  then {| code := wgslShaders_fragment; transform := None |}
  else {| code := glslShaders_fragment; transform := Some stage_fragment |}.

Definition vertex_buffers : list GPUVertexBufferLayout :=
  [ {| arrayStride := cube.cubeVertexSize;
       attributes :=
         [ {| shaderLocation := 0; offset := cube.cubePositionOffset; format := float32x4 |};
           {| shaderLocation := 1; offset := cube.cubeUVOffset; format := float32x2 |} ] |} ].

Definition pipeline_descriptor (pipelineLayout vertexModule fragmentModule : handle)
  : GPURenderPipelineDescriptor :=
  {| layout := pipelineLayout;
     vertex := {| vertex_module := vertexModule; vertex_entryPoint := "main";
                  buffers := vertex_buffers |};
     fragment := {| fragment_module := fragmentModule; fragment_entryPoint := "main";
                    targets := [bgra8unorm] |};
     primitive := {| topology := triangle_list; cullMode := cull_back |};
     depthStencil := {| depthWriteEnabled := true; depthCompare := cmp_less;
                        depth_format := depth24plus_stencil8 |} |}.

Definition initial_renderPassDescriptor (depthView : handle) : GPURenderPassDescriptor :=
  {| colorAttachments :=
       [ {| attachment := None;
            loadValue := clear_to {| r := 0.5; g := 0.5; b := 0.5; alpha := 1 |};
            storeOp := None |} ];
     depthStencilAttachment :=
       {| depth_attachment := depthView;
          depthLoadValue := clear_to 1%float;
          depthStoreOp := op_store;
          stencilLoadValue := clear_to 0;
          stencilStoreOp := op_store |} |}.

(** [init] up to the [return]: the awaited promises are taken as resolved
    ([imageBitmap] is the decoded image); a rejected one ends [init] before
    any frame callback exists. *)
Definition init (canvas : HTMLCanvasElement) (useWGSL : bool) (imageBitmap : ImageBitmap)
  : JS Env :=
  adapter ← create requestAdapter;
  device ← create (requestDevice adapter);
  projectionMatrix ← mat4_create;
  mat4_perspective projectionMatrix fovy (aspect canvas) 1 100;;
  context ← create getContext;
  swapChain ← create (configureSwapChain context
                        {| swap_device := device; swap_format := bgra8unorm |});
  verticesBuffer ← create (createBuffer
      {| buf_size := elements_byteLength (cube.cubeVertexArray cubeVertices);
         buf_usage := GPUBufferUsage.VERTEX;
         mappedAtCreation := Some true |});
  call (setMappedRange verticesBuffer (cube.cubeVertexArray cubeVertices));;
  call (unmap verticesBuffer);;
  bindGroupLayout ← create (createBindGroupLayout bindGroupLayout_entries);
  pipelineLayout ← create (createPipelineLayout [bindGroupLayout]);
  vertexModule ← create (createShaderModule (vertex_shader_descriptor useWGSL));
  fragmentModule ← create (createShaderModule (fragment_shader_descriptor useWGSL));
  pipeline ← create (createRenderPipeline
                       (pipeline_descriptor pipelineLayout vertexModule fragmentModule));
  depthTexture ← create (createTexture
      {| tex_size := extent_dict (canvas_width canvas) (canvas_height canvas);
         tex_format := depth24plus_stencil8;
         tex_usage := GPUTextureUsage.RENDER_ATTACHMENT |});
  depthView ← create (createView depthTexture);
  renderPassDescriptor ← new_object (descriptor (initial_renderPassDescriptor depthView));
  uniformBuffer ← create (createBuffer
      {| buf_size := uniformBufferSize;
         buf_usage := Z.lor GPUBufferUsage.UNIFORM GPUBufferUsage.COPY_DST;
         mappedAtCreation := None |});
  cubeTexture ← create (createTexture
      {| tex_size := extent_seq [bitmap_width imageBitmap; bitmap_height imageBitmap; 1%N];
         tex_format := rgba8unorm;
         tex_usage := Z.lor GPUTextureUsage.SAMPLED GPUTextureUsage.COPY_DST |});
  call (copyImageBitmapToTexture imageBitmap cubeTexture
          [bitmap_width imageBitmap; bitmap_height imageBitmap; 1%N]);;
  sampler ← create (createSampler {| magFilter := linear; minFilter := linear |});
  groupLayout ← create (getBindGroupLayout pipeline 0);
  cubeView ← create (createView cubeTexture);
  uniformBindGroup ← create (createBindGroup
      {| group_layout := groupLayout;
         entries :=
           [ {| binding := 0; resource := resource_buffer uniformBuffer |};
             {| binding := 1; resource := resource_sampler sampler |};
             {| binding := 2; resource := resource_view cubeView |} ] |});
  mret {| device := device; projectionMatrix := projectionMatrix; swapChain := swapChain;
          verticesBuffer := verticesBuffer; pipeline := pipeline;
          depthTexture := depthTexture; renderPassDescriptor := renderPassDescriptor;
          uniformBuffer := uniformBuffer; cubeTexture := cubeTexture; sampler := sampler;
          uniformBindGroup := uniformBindGroup |}.

(** *** The closures

    [Date_now] is the value [Date.now()] returns during the call. *)
Definition seconds (Date_now : float) : float := (Date_now / 1000)%float.

Definition getTransformationMatrix (env : Env) (Date_now : float) : JS loc :=
  viewMatrix ← mat4_create;
  v ← vec3_fromValues 0 0 (-4);
  mat4_translate viewMatrix viewMatrix v;;
  let now := seconds Date_now in
  axis ← vec3_fromValues (Math_sin now) (Math_cos now) 0;
  mat4_rotate viewMatrix viewMatrix 1 axis;;
  modelViewProjectionMatrix ← mat4_create;
  mat4_multiply modelViewProjectionMatrix (projectionMatrix env) viewMatrix;;
  mret modelViewProjectionMatrix.

(** [colorAttachments[0].attachment = view] on the descriptor object. *)
Definition set_color_attachment (l : loc) (view : handle) : JS unit :=
  d ← read_descriptor l;
  match colorAttachments d !! 0%nat with
  | Some c =>
      write l (descriptor
        {| colorAttachments :=
             <[0%nat := {| attachment := Some view; loadValue := loadValue c;
                           storeOp := storeOp c |}]> (colorAttachments d);
           depthStencilAttachment := depthStencilAttachment d |})
  | None => throw
  end.

Definition frame (env : Env) (Date_now : float) : JS unit :=
  transformationMatrix ← getTransformationMatrix env Date_now;
  data ← read_typed transformationMatrix;
  call (writeBuffer (uniformBuffer env) 0 data (byteOffset data) (byteLength data));;
  texture ← create (getCurrentTexture (swapChain env));
  view ← create (createView texture);
  set_color_attachment (renderPassDescriptor env) view;;
  commandEncoder ← create createCommandEncoder;
  d ← read_descriptor (renderPassDescriptor env);
  passEncoder ← create (beginRenderPass commandEncoder d);
  call (setPipeline passEncoder (pipeline env));;
  call (setBindGroup passEncoder 0 (uniformBindGroup env));;
  call (setVertexBuffer passEncoder 0 (verticesBuffer env));;
  call (draw passEncoder 36 1 0 0);;
  call (endPass passEncoder);;
  commandBuffer ← create (finish commandEncoder);
  call (submit [commandBuffer]).

(** The frame callback invoked once per entry of [clock], in order. *)
Fixpoint frames (env : Env) (clock : list float) : JS unit :=
  match clock with
  | [] => mret ()
  | t :: clock' => frame env t;; frames env clock'
  end.

(** [init] on a freshly loaded page, then one [frame] call per clock value. *)
Definition session (canvas : HTMLCanvasElement) (useWGSL : bool) (imageBitmap : ImageBitmap)
    (clock : list float) : option (Env * World) :=
  (env ← init canvas useWGSL imageBitmap; frames env clock;; mret env) World0.

(** *** Observations on the device calls *)

(** The last [writeBuffer] on a buffer: buffer offset, data, data offset
    and size. *)
Definition last_write (buffer : handle) (cs : list GPUCall)
  : option (Z * Float32Array * Z * Z) :=
  last (omap (λ c, match c with
                   | writeBuffer b o data od n =>
                       if decide (b = buffer) then Some (o, data, od, n) else None
                   | _ => None
                   end) cs).

Definition buffer_descriptor (buffer : handle) (cs : list GPUCall)
  : option GPUBufferDescriptor :=
  head (omap (λ c, match c with
                   | createBuffer d h => if decide (h = buffer) then Some d else None
                   | _ => None
                   end) cs).

Definition pipeline_descriptor_of (p : handle) (cs : list GPUCall)
  : option GPURenderPipelineDescriptor :=
  head (omap (λ c, match c with
                   | createRenderPipeline d h => if decide (h = p) then Some d else None
                   | _ => None
                   end) cs).

(** The object a call constructs, for the kinds of object that persist:
    buffers, textures, samplers, pipelines and bind groups. *)
Definition persistent_object (c : GPUCall) : option handle :=
  match c with
  | createBuffer _ h | createTexture _ h | createSampler _ h
  | createRenderPipeline _ h | createBindGroup _ h => Some h
  | _ => None
  end.


Definition destroyed (c : GPUCall) : option handle :=
  match c with destroy h => Some h | _ => None end.

(** The device object whose contents a call replaces from the CPU side. *)
Definition uploads_to (c : GPUCall) : option handle :=
  match c with
  | writeBuffer b _ _ _ _ | setMappedRange b _ => Some b
  | copyImageBitmapToTexture _ t _ => Some t
  | _ => None
  end.

(** The pass encoder a command is recorded on. *)
Definition pass_of (c : GPUCall) : option handle :=
  match c with
  | setPipeline p _ | setBindGroup p _ _ | setVertexBuffer p _ _ | setIndexBuffer p _
  | draw p _ _ _ _ | drawIndexed p _ _ _ _ _ => Some p
  | _ => None
  end.

(** Every render pass begun in [cs]: its encoder, its descriptor as read by
    [beginRenderPass], and the commands recorded on it, in order. *)
Definition render_passes (cs : list GPUCall)
  : list (handle * GPURenderPassDescriptor * list GPUCall) :=
  omap (λ c, match c with
             | beginRenderPass _ d p => Some (p, d, filter (λ c', pass_of c' = Some p) cs)
             | _ => None
             end) cs.

(** The command buffers handed to the queue, each with the encoder it was
    finished from. *)
Definition submitted (cs : list GPUCall) : list (list handle) :=
  omap (λ c, match c with submit l => Some l | _ => None end) cs.

(** Vertex attributes laid out one after the other from [start], filling
    the stride exactly. *)
Fixpoint interleaved_layout (start : Z) (attrs : list GPUVertexAttribute) (stride : Z) : Prop :=
  match attrs with
  | [] => start = stride
  | a :: attrs' =>
      offset a = start ∧ interleaved_layout (start + vertexFormatSize (format a)) attrs' stride
  end.

(** The state between two calls of [frame]: the projection matrix as built
    by [init], the descriptor as built by [init] up to the color attachment's
    view, and no object beyond the next free reference. *)
Definition renderPassDescriptor_state (view : option handle) (depthView : handle)
  : GPURenderPassDescriptor :=
  {| colorAttachments :=
       [ {| attachment := view;
            loadValue := clear_to {| r := 0.5; g := 0.5; b := 0.5; alpha := 1 |};
            storeOp := None |} ];
     depthStencilAttachment := depthStencilAttachment (initial_renderPassDescriptor depthView) |}.

Definition ready (canvas : HTMLCanvasElement) (depthView : handle) (env : Env) (w : World)
  : Prop :=
  store w !! projectionMatrix env
    = Some (typed (f32x16 (mat4_perspective_v fovy (aspect canvas) 1 100)))
  ∧ (∃ view, store w !! renderPassDescriptor env
       = Some (descriptor (renderPassDescriptor_state view depthView)))
  ∧ (∀ l, is_Some (store w !! l) → (l < next_loc w)%nat).

(** A call that constructs no persistent object and destroys none. *)
Definition frame_only (c : GPUCall) : Prop :=
  persistent_object c = None ∧ destroyed c = None.

(** The references and handles [init] hands out on a freshly loaded page,
    in the order of its calls, and the calls it makes there. *)
Definition env0 : Env :=
  {| device := 1; projectionMatrix := 0; swapChain := 3; verticesBuffer := 4;
     pipeline := 9; depthTexture := 10; renderPassDescriptor := 1; uniformBuffer := 12;
     cubeTexture := 13; sampler := 14; uniformBindGroup := 17 |}%nat.

Definition depthView0 : handle := 11%nat.

Definition init_calls (canvas : HTMLCanvasElement) (useWGSL : bool) (imageBitmap : ImageBitmap)
  : list GPUCall :=
  match init canvas useWGSL imageBitmap World0 with
  | Some (_, w) => calls w
  | None => []
  end.

End Sample.

(** ** The shaders

    Both dialects compute on the device's 32-bit floats and sample with the
    device's sampling unit: these are an interface, shared by the two. *)

Module vec2.
Record t (F : Type) := mk { x : F; y : F }.
Arguments mk {F} x y.
Arguments x {F} t.
Arguments y {F} t.
End vec2.

Module vec4.
Record t (F : Type) := mk { x : F; y : F; z : F; w : F }.
Arguments mk {F} x y z w.
Arguments x {F} t.
Arguments y {F} t.
Arguments z {F} t.
Arguments w {F} t.

(** The components by name, to state a property of each of them. *)
Inductive component := X | Y | Z | W.

Definition get {F} (i : component) (v : t F) : F :=
  match i with X => x v | Y => y v | Z => z v | W => w v end.
End vec4.

(** A 4x4 matrix is four columns. *)
Module mat4x4.
Record t (F : Type) := mk { c0 : vec4.t F; c1 : vec4.t F; c2 : vec4.t F; c3 : vec4.t F }.
Arguments mk {F} c0 c1 c2 c3.
Arguments c0 {F} t.
Arguments c1 {F} t.
Arguments c2 {F} t.
Arguments c3 {F} t.
End mat4x4.

Class GPUArith := {
  f32 : Type;
  f32_literal : Q → f32;
  f32_add : f32 → f32 → f32;
  f32_mul : f32 → f32 → f32;
  texture_2d : Type;
  sampler_state : Type;
  image_sample : texture_2d → sampler_state → vec2.t f32 → vec4.t f32;
}.

(** The operators of the GLSL sources. *)
Module GLSL.
Section Ops.
Context `{GPUArith}.

(** [vec4(s)]: every component is [s]. *)
Definition vec4_of_scalar (s : f32) : vec4.t f32 := vec4.mk s s s s.

Definition add (u v : vec4.t f32) : vec4.t f32 :=
  vec4.mk (f32_add (vec4.x u) (vec4.x v)) (f32_add (vec4.y u) (vec4.y v))
          (f32_add (vec4.z u) (vec4.z v)) (f32_add (vec4.w u) (vec4.w v)).

(** [float * vec4]. *)
Definition scale (s : f32) (v : vec4.t f32) : vec4.t f32 :=
  vec4.mk (f32_mul s (vec4.x v)) (f32_mul s (vec4.y v))
          (f32_mul s (vec4.z v)) (f32_mul s (vec4.w v)).

(** [vec4 * vec4], component by component. *)
Definition mul (u v : vec4.t f32) : vec4.t f32 :=
  vec4.mk (f32_mul (vec4.x u) (vec4.x v)) (f32_mul (vec4.y u) (vec4.y v))
          (f32_mul (vec4.z u) (vec4.z v)) (f32_mul (vec4.w u) (vec4.w v)).

Definition dot (u v : vec4.t f32) : f32 :=
  f32_add (f32_add (f32_add (f32_mul (vec4.x u) (vec4.x v)) (f32_mul (vec4.y u) (vec4.y v)))
                   (f32_mul (vec4.z u) (vec4.z v)))
          (f32_mul (vec4.w u) (vec4.w v)).

(** [mat4 * vec4]: each component is a row of the matrix times the vector. *)
Definition transform (m : mat4x4.t f32) (v : vec4.t f32) : vec4.t f32 :=
  let row (p : vec4.t f32 → f32) :=
    vec4.mk (p (mat4x4.c0 m)) (p (mat4x4.c1 m)) (p (mat4x4.c2 m)) (p (mat4x4.c3 m)) in
  vec4.mk (dot (row vec4.x) v) (dot (row vec4.y) v) (dot (row vec4.z) v) (dot (row vec4.w) v).

Definition sampler2D (t : texture_2d) (s : sampler_state) : texture_2d * sampler_state :=
  (t, s).

Definition texture (ts : texture_2d * sampler_state) (P : vec2.t f32) : vec4.t f32 :=
  image_sample ts.1 ts.2 P.

End Ops.
End GLSL.

(** The operators of the WGSL sources. *)
Module WGSL.
Section Ops.
Context `{GPUArith}.

Definition add (u v : vec4.t f32) : vec4.t f32 :=
  vec4.mk (f32_add (vec4.x u) (vec4.x v)) (f32_add (vec4.y u) (vec4.y v))
          (f32_add (vec4.z u) (vec4.z v)) (f32_add (vec4.w u) (vec4.w v)).

Definition scale (s : f32) (v : vec4.t f32) : vec4.t f32 :=
  vec4.mk (f32_mul s (vec4.x v)) (f32_mul s (vec4.y v))
          (f32_mul s (vec4.z v)) (f32_mul s (vec4.w v)).

Definition mul (u v : vec4.t f32) : vec4.t f32 :=
  vec4.mk (f32_mul (vec4.x u) (vec4.x v)) (f32_mul (vec4.y u) (vec4.y v))
          (f32_mul (vec4.z u) (vec4.z v)) (f32_mul (vec4.w u) (vec4.w v)).

(** [mat4x4<f32> * vec4<f32>], component [i] being the sum over the columns
    [j] of [m[j][i] * v[j]]. *)
Definition transform (m : mat4x4.t f32) (v : vec4.t f32) : vec4.t f32 :=
  let component (p : vec4.t f32 → f32) :=
    f32_add (f32_add (f32_add (f32_mul (p (mat4x4.c0 m)) (vec4.x v))
                              (f32_mul (p (mat4x4.c1 m)) (vec4.y v)))
                     (f32_mul (p (mat4x4.c2 m)) (vec4.z v)))
            (f32_mul (p (mat4x4.c3 m)) (vec4.w v)) in
  vec4.mk (component vec4.x) (component vec4.y) (component vec4.z) (component vec4.w).

Definition textureSample (t : texture_2d) (s : sampler_state) (coords : vec2.t f32)
  : vec4.t f32 :=
  image_sample t s coords.

End Ops.
End WGSL.

Section Shaders.
Context `{GPUArith}.

(** What a vertex shader hands to the rasterizer. *)
Record VertexOutput := {
  Position : vec4.t f32;
  fragUV : vec2.t f32;
  fragPosition : vec4.t f32;
}.

(** [glslShaders.vertex]. *)
Definition glsl_vertex_main (modelViewProjectionMatrix : mat4x4.t f32)
    (position : vec4.t f32) (uv : vec2.t f32) : VertexOutput :=
  let fragPosition :=
    GLSL.scale (f32_literal 0.5) (GLSL.add position (GLSL.vec4_of_scalar (f32_literal 1.0))) in
  let gl_Position := GLSL.transform modelViewProjectionMatrix position in
  let fragUV := uv in
  {| Position := gl_Position; fragUV := fragUV; fragPosition := fragPosition |}.

(** [glslShaders.fragment]. *)
Definition glsl_fragment_main (myTexture : texture_2d) (mySampler : sampler_state)
    (fragUV : vec2.t f32) (fragPosition : vec4.t f32) : vec4.t f32 :=
  GLSL.mul (GLSL.texture (GLSL.sampler2D myTexture mySampler) fragUV) fragPosition.

(** [wgslShaders.vertex]. *)
Definition wgsl_vertex_main (modelViewProjectionMatrix : mat4x4.t f32)
    (position : vec4.t f32) (uv : vec2.t f32) : VertexOutput :=
  let fragPosition :=
    WGSL.scale (f32_literal 0.5)
      (WGSL.add position
         (vec4.mk (f32_literal 1.0) (f32_literal 1.0) (f32_literal 1.0) (f32_literal 1.0))) in
  let Position := WGSL.transform modelViewProjectionMatrix position in
  let fragUV := uv in
  {| Position := Position; fragUV := fragUV; fragPosition := fragPosition |}.

(** [wgslShaders.fragment]. *)
Definition wgsl_fragment_main (myTexture : texture_2d) (mySampler : sampler_state)
    (fragUV : vec2.t f32) (fragPosition : vec4.t f32) : vec4.t f32 :=
  WGSL.mul (WGSL.textureSample myTexture mySampler fragUV) fragPosition.

(** The entry point [main] of a module used as a vertex stage, and as a
    fragment stage. *)
Definition vertex_stage (c : ShaderCode)
  : option (mat4x4.t f32 → vec4.t f32 → vec2.t f32 → VertexOutput) :=
  match c with
  | glslShaders_vertex => Some glsl_vertex_main
  | wgslShaders_vertex => Some wgsl_vertex_main
  | _ => None
  end.

Definition fragment_stage (c : ShaderCode)
  : option (texture_2d → sampler_state → vec2.t f32 → vec4.t f32 → vec4.t f32) :=
  match c with
  | glslShaders_fragment => Some glsl_fragment_main
  | wgslShaders_fragment => Some wgsl_fragment_main
  | _ => None
  end.

(** The color of one fragment of one primitive drawn by the pipeline that
    [init] builds for [useWGSL]: the vertex stage runs on each vertex, the
    rasterizer ([interpolate], any function) turns the outputs into the
    fragment's inputs, and the fragment stage runs on them. *)
Definition fragment_color (useWGSL : bool)
    (interpolate : list VertexOutput → vec2.t f32 * vec4.t f32)
    (modelViewProjectionMatrix : mat4x4.t f32)
    (myTexture : texture_2d) (mySampler : sampler_state)
    (vertices : list (vec4.t f32 * vec2.t f32)) : option (vec4.t f32) :=
  vs ← vertex_stage (code (vertex_shader_descriptor useWGSL));
  fs ← fragment_stage (code (fragment_shader_descriptor useWGSL));
  let outputs := map (λ v, vs modelViewProjectionMatrix v.1 v.2) vertices in
  let inputs := interpolate outputs in
  Some (fs myTexture mySampler inputs.1 inputs.2).

End Shaders.

(** ** Whole sessions, the device's rules and the shaders' declarations *)

(** [usage] has the bits of [flag]. *)
Definition has_usage (flag usage : Z) : Prop := Z.land usage flag = flag.

(** The three dimensions of a texture size, a missing depth being 1. *)
Definition extent_dims (e : GPUExtent3D) : list N :=
  match e with
  | extent_dict width height => [width; height; 1%N]
  | extent_seq dims => dims
  end.

Section Sessions.
Context `{JSMath} `{GlMatrix}.

(** The matrix [getTransformationMatrix] builds for a canvas and a value of
    [Date.now()]. *)
Definition modelViewProjection (canvas : HTMLCanvasElement) (Date_now : float) : mat4v :=
  mat4_multiply_v
    (mat4_perspective_v fovy (aspect canvas) 1 100)
    (mat4_rotate_v
       (mat4_translate_v mat4_create_v (vec3_fromValues_v 0 0 (-4))) 1
       (vec3_fromValues_v (Math_sin (seconds Date_now)) (Math_cos (seconds Date_now)) 0)).

(** The calls of one [frame] that uploads [data], reads the descriptor [d]
    and is handed the handles from [h] on. *)
Definition frame_calls (env : Env) (data : Float32Array) (d : GPURenderPassDescriptor)
    (h : handle) : list GPUCall :=
  [ writeBuffer (uniformBuffer env) 0 data 0 64;
    getCurrentTexture (swapChain env) h;
    createView h (S h);
    createCommandEncoder (S (S h));
    beginRenderPass (S (S h)) d (S (S (S h)));
    setPipeline (S (S (S h))) (pipeline env);
    setBindGroup (S (S (S h))) 0 (uniformBindGroup env);
    setVertexBuffer (S (S (S h))) 0 (verticesBuffer env);
    draw (S (S (S h))) 36 1 0 0;
    endPass (S (S (S h)));
    finish (S (S h)) (S (S (S (S h))));
    submit [S (S (S (S h)))] ].

(** The calls of the frames of a session, frame by frame, the first frame
    being handed the handles from [h] on. *)
Fixpoint session_frames (canvas : HTMLCanvasElement) (h : handle) (clock : list float)
  : list (list GPUCall) :=
  match clock with
  | [] => []
  | t :: clock' =>
      frame_calls env0 (f32x16 (modelViewProjection canvas t))
        (renderPassDescriptor_state (Some (S h)) depthView0) h
      :: session_frames canvas (5 + h)%nat clock'
  end.

(** The first call of [cs] that [f] recognises. *)
Definition find_call {A} (f : GPUCall → option A) (cs : list GPUCall) : option A :=
  head (omap f cs).

Definition texture_descriptor (t : handle) (cs : list GPUCall) : option GPUTextureDescriptor :=
  find_call (λ c, match c with
                  | createTexture d h => if decide (h = t) then Some d else None
                  | _ => None
                  end) cs.

(** The texture a view was created from. *)
Definition view_texture (v : handle) (cs : list GPUCall) : option handle :=
  find_call (λ c, match c with
                  | createView t h => if decide (h = v) then Some t else None
                  | _ => None
                  end) cs.

Definition sampler_descriptor (s : handle) (cs : list GPUCall) : option GPUSamplerDescriptor :=
  find_call (λ c, match c with
                  | createSampler d h => if decide (h = s) then Some d else None
                  | _ => None
                  end) cs.

Definition shader_module_descriptor (m : handle) (cs : list GPUCall)
  : option GPUShaderModuleDescriptor :=
  find_call (λ c, match c with
                  | createShaderModule d h => if decide (h = m) then Some d else None
                  | _ => None
                  end) cs.

Definition swap_chain_descriptor (s : handle) (cs : list GPUCall)
  : option GPUSwapChainDescriptor :=
  find_call (λ c, match c with
                  | configureSwapChain _ d h => if decide (h = s) then Some d else None
                  | _ => None
                  end) cs.

Definition bind_group_descriptor (g : handle) (cs : list GPUCall)
  : option GPUBindGroupDescriptor :=
  find_call (λ c, match c with
                  | createBindGroup d h => if decide (h = g) then Some d else None
                  | _ => None
                  end) cs.

(** The entries a bind group layout was created with, or, for a layout
    obtained by [pipeline.getBindGroupLayout(i)], the entries of the [i]-th
    layout of the pipeline's layout. *)
Definition created_layout_entries (l : handle) (cs : list GPUCall)
  : option (list GPUBindGroupLayoutEntry) :=
  find_call (λ c, match c with
                  | createBindGroupLayout es h => if decide (h = l) then Some es else None
                  | _ => None
                  end) cs.

Definition pipeline_layout_groups (l : handle) (cs : list GPUCall) : option (list handle) :=
  find_call (λ c, match c with
                  | createPipelineLayout ls h => if decide (h = l) then Some ls else None
                  | _ => None
                  end) cs.

Definition layout_entries (l : handle) (cs : list GPUCall)
  : option (list GPUBindGroupLayoutEntry) :=
  match created_layout_entries l cs with
  | Some es => Some es
  | None =>
      '(p, i) ← find_call (λ c, match c with
                                | getBindGroupLayout p i h =>
                                    if decide (h = l) then Some (p, i) else None
                                | _ => None
                                end) cs;
      pd ← pipeline_descriptor_of p cs;
      ls ← pipeline_layout_groups (layout pd) cs;
      l' ← ls !! Z.to_nat i;
      created_layout_entries l' cs
  end.

(** A resource fits the layout entry it is bound to: a uniform buffer with
    the UNIFORM usage, a sampler, or a view of a texture with the SAMPLED
    usage and a format that is sampled as floats. *)
Definition fits_layout (cs : list GPUCall) (le : GPUBindGroupLayoutEntry)
    (e : GPUBindGroupEntry) : Prop :=
  layout_binding le = binding e
  ∧ match layout_resource le, resource e with
    | layout_buffer uniform, resource_buffer b =>
        ∃ d, buffer_descriptor b cs = Some d ∧ has_usage GPUBufferUsage.UNIFORM (buf_usage d)
    | layout_sampler filtering, resource_sampler s =>
        is_Some (sampler_descriptor s cs)
    | layout_texture sample_float, resource_view v =>
        ∃ t d, view_texture v cs = Some t
          ∧ texture_descriptor t cs = Some d
          ∧ has_usage GPUTextureUsage.SAMPLED (tex_usage d)
          ∧ tex_format d ≠ depth24plus_stencil8
    | _, _ => False
    end.

(** What the device requires of a call, given the calls [cs] that created
    the objects: a written buffer has the COPY_DST usage and holds the
    written range, which lies within the data; a vertex buffer has the VERTEX
    usage; a buffer filled through its mapping was created mapped and holds
    the data; the destination of an image copy has the COPY_DST usage and the
    copy is as large as the image and as the texture. *)
Definition allowed (cs : list GPUCall) (c : GPUCall) : Prop :=
  match c with
  | writeBuffer b o data od n =>
      ∃ d, buffer_descriptor b cs = Some d
        ∧ has_usage GPUBufferUsage.COPY_DST (buf_usage d)
        ∧ 0 ≤ o ∧ o + n ≤ buf_size d
        ∧ 0 ≤ od ∧ od + n ≤ byteLength data
        ∧ n `mod` 4 = 0
  | setVertexBuffer _ _ b =>
      ∃ d, buffer_descriptor b cs = Some d
        ∧ has_usage GPUBufferUsage.VERTEX (buf_usage d)
  | setMappedRange b data =>
      ∃ d, buffer_descriptor b cs = Some d
        ∧ mappedAtCreation d = Some true
        ∧ elements_byteLength data ≤ buf_size d
  | copyImageBitmapToTexture source t copySize =>
      ∃ d, texture_descriptor t cs = Some d
        ∧ has_usage GPUTextureUsage.COPY_DST (tex_usage d)
        ∧ copySize = extent_dims (tex_size d)
        ∧ copySize = [bitmap_width source; bitmap_height source; 1%N]
  | _ => True
  end.



(** *** The order of calls

    A recorder that follows the calls and refuses one made out of order.  It
    accepts one open encoder and one open pass at a time, and a [submit] of
    exactly the command buffers finished and not yet submitted. *)
Record Recorder := {
  open_encoder : option handle;
  open_pass : option handle;
  pipeline_set : bool;
  bind_group_set : bool;
  vertex_buffer_set : bool;
  index_buffer_set : bool;
  finished : list handle;
  mapped : list handle;
}.

Definition idle : Recorder :=
  {| open_encoder := None; open_pass := None; pipeline_set := false;
     bind_group_set := false; vertex_buffer_set := false; index_buffer_set := false;
     finished := []; mapped := [] |}.

Definition on_pass (st : Recorder) (p : handle) (st' : Recorder) : option Recorder :=
  if decide (open_pass st = Some p) then Some st' else None.

Definition record (st : Recorder) (c : GPUCall) : option Recorder :=
  match c with
  | createBuffer d b =>
      Some {| open_encoder := open_encoder st; open_pass := open_pass st;
              pipeline_set := pipeline_set st; bind_group_set := bind_group_set st;
              vertex_buffer_set := vertex_buffer_set st;
              index_buffer_set := index_buffer_set st; finished := finished st;
              mapped := if decide (mappedAtCreation d = Some true)
                        then b :: mapped st else mapped st |}
  | setMappedRange b _ => if decide (b ∈ mapped st) then Some st else None
  | unmap b =>
      if decide (b ∈ mapped st)
      then Some {| open_encoder := open_encoder st; open_pass := open_pass st;
                   pipeline_set := pipeline_set st; bind_group_set := bind_group_set st;
                   vertex_buffer_set := vertex_buffer_set st;
                   index_buffer_set := index_buffer_set st; finished := finished st;
                   mapped := filter (λ b', b' ≠ b) (mapped st) |}
      else None
  | writeBuffer b _ _ _ _ => if decide (b ∈ mapped st) then None else Some st
  | createCommandEncoder e =>
      if decide (open_encoder st = None)
      then Some {| open_encoder := Some e; open_pass := None; pipeline_set := false;
                   bind_group_set := false; vertex_buffer_set := false;
                   index_buffer_set := false; finished := finished st;
                   mapped := mapped st |}
      else None
  | beginRenderPass e _ p =>
      if decide (open_encoder st = Some e ∧ open_pass st = None)
      then Some {| open_encoder := Some e; open_pass := Some p; pipeline_set := false;
                   bind_group_set := false; vertex_buffer_set := false;
                   index_buffer_set := false; finished := finished st;
                   mapped := mapped st |}
      else None
  | setPipeline p _ =>
      on_pass st p {| open_encoder := open_encoder st; open_pass := open_pass st;
                      pipeline_set := true; bind_group_set := bind_group_set st;
                      vertex_buffer_set := vertex_buffer_set st;
                      index_buffer_set := index_buffer_set st; finished := finished st;
                      mapped := mapped st |}
  | setBindGroup p _ _ =>
      on_pass st p {| open_encoder := open_encoder st; open_pass := open_pass st;
                      pipeline_set := pipeline_set st; bind_group_set := true;
                      vertex_buffer_set := vertex_buffer_set st;
                      index_buffer_set := index_buffer_set st; finished := finished st;
                      mapped := mapped st |}
  | setVertexBuffer p _ _ =>
      on_pass st p {| open_encoder := open_encoder st; open_pass := open_pass st;
                      pipeline_set := pipeline_set st; bind_group_set := bind_group_set st;
                      vertex_buffer_set := true;
                      index_buffer_set := index_buffer_set st; finished := finished st;
                      mapped := mapped st |}
  | setIndexBuffer p _ =>
      on_pass st p {| open_encoder := open_encoder st; open_pass := open_pass st;
                      pipeline_set := pipeline_set st; bind_group_set := bind_group_set st;
                      vertex_buffer_set := vertex_buffer_set st;
                      index_buffer_set := true; finished := finished st;
                      mapped := mapped st |}
  | draw p _ _ _ _ =>
      if pipeline_set st && bind_group_set st && vertex_buffer_set st
      then on_pass st p st else None
  | drawIndexed p _ _ _ _ _ =>
      if pipeline_set st && bind_group_set st && vertex_buffer_set st && index_buffer_set st
      then on_pass st p st else None
  | endPass p =>
      on_pass st p {| open_encoder := open_encoder st; open_pass := None;
                      pipeline_set := false; bind_group_set := false;
                      vertex_buffer_set := false; index_buffer_set := false;
                      finished := finished st; mapped := mapped st |}
  | finish e b =>
      if decide (open_encoder st = Some e ∧ open_pass st = None)
      then Some {| open_encoder := None; open_pass := None; pipeline_set := false;
                   bind_group_set := false; vertex_buffer_set := false;
                   index_buffer_set := false; finished := finished st ++ [b];
                   mapped := mapped st |}
      else None
  | submit bs =>
      if decide (bs = finished st ∧ mapped st = [])
      then Some {| open_encoder := open_encoder st; open_pass := open_pass st;
                   pipeline_set := pipeline_set st; bind_group_set := bind_group_set st;
                   vertex_buffer_set := vertex_buffer_set st;
                   index_buffer_set := index_buffer_set st; finished := [];
                   mapped := mapped st |}
      else None
  | _ => Some st
  end.

Fixpoint record_all (st : Recorder) (cs : list GPUCall) : option Recorder :=
  match cs with
  | [] => Some st
  | c :: cs' => match record st c with Some st' => record_all st' cs' | None => None end
  end.

End Sessions.

(** *** What the shader sources declare *)

Inductive ShaderDialect := GLSL_source | WGSL_source.

Definition code_dialect (c : ShaderCode) : ShaderDialect :=
  match c with
  | glslShaders_vertex | glslShaders_fragment => GLSL_source
  | wgslShaders_vertex | wgslShaders_fragment => WGSL_source
  end.

(** The stage a source is written for: it assigns [gl_Position] or is marked
    [stage(vertex)], or writes a color and is marked [stage(fragment)]. *)
Definition code_stage (c : ShaderCode) : ShaderStage :=
  match c with
  | glslShaders_vertex | wgslShaders_vertex => stage_vertex
  | glslShaders_fragment | wgslShaders_fragment => stage_fragment
  end.

Inductive ShaderType := type_vec2 | type_vec4.
Inductive ShaderResource :=
  uniform_block | storage_block | sampler_resource | texture2D_resource.

(** The [location]s of the inputs and of the user-defined outputs, and the
    group (or set) and binding of each resource. *)
Record ShaderInterface := {
  inputs : list (Z * ShaderType);
  outputs : list (Z * ShaderType);
  resources : list (Z * Z * ShaderResource);
}.

Definition shader_interface (c : ShaderCode) : ShaderInterface :=
  match c with
  | glslShaders_vertex =>
      {| inputs := [(0, type_vec4); (1, type_vec2)];
         outputs := [(0, type_vec2); (1, type_vec4)];
         resources := [(0, 0, uniform_block)] |}
  | glslShaders_fragment =>
      {| inputs := [(0, type_vec2); (1, type_vec4)];
         outputs := [(0, type_vec4)];
         resources := [(0, 1, sampler_resource); (0, 2, texture2D_resource)] |}
  | wgslShaders_vertex =>
      {| inputs := [(0, type_vec4); (1, type_vec2)];
         outputs := [(0, type_vec2); (1, type_vec4)];
         resources := [(0, 0, uniform_block)] |}
  | wgslShaders_fragment =>
      {| inputs := [(0, type_vec2); (1, type_vec4)];
         outputs := [(0, type_vec4)];
         resources := [(0, 1, sampler_resource); (0, 2, texture2D_resource)] |}
  end.

(** The shader type a vertex format is read as. *)
Definition format_type (f : GPUVertexFormat) : option ShaderType :=
  match f with
  | float32x2 => Some type_vec2
  | float32x4 => Some type_vec4
  | float32x3 => None
  end.

(** The declaration a layout entry stands for. *)
Definition layout_declares (l : GPUBindingLayout) : ShaderResource :=
  match l with
  | layout_buffer uniform => uniform_block
  | layout_buffer _ => storage_block
  | layout_sampler _ => sampler_resource
  | layout_texture _ => texture2D_resource
  end.

(** The resources of group 0 that a layout shows to a stage. *)
Definition visible_resources (stage : Z) (es : list GPUBindGroupLayoutEntry)
  : list (Z * Z * ShaderResource) :=
  omap (λ e, if decide (Z.land (visibility e) stage = 0) then None
             else Some (0, layout_binding e, layout_declares (layout_resource e))) es.

Definition stage_bit (s : ShaderStage) : Z :=
  match s with
  | stage_vertex => GPUShaderStage.VERTEX
  | stage_fragment => GPUShaderStage.FRAGMENT
  end.

(** ** An instance to run the model on

    Matrices are kept as the expressions that build them, so that two
    matrices are equal only when they were built alike; sine and cosine are
    the first terms of their series, in binary64 arithmetic. *)
Module Reference.

Inductive matrix :=
| identity
| perspective (fovy aspect near far : float)
| translate (m : matrix) (v : float * float * float)
| rotate (m : matrix) (rad : float) (axis : float * float * float)
| multiply (a b : matrix).

#[export] Instance gl_matrix : GlMatrix := {|
  mat4v := matrix;
  vec3v := float * float * float;
  mat4_create_v := identity;
  vec3_fromValues_v := λ x y z, (x, y, z);
  mat4_perspective_v := perspective;
  mat4_translate_v := translate;
  mat4_rotate_v := rotate;
  mat4_multiply_v := multiply;
|}.

Definition sin (x : float) : float := (x - x * x * x / 6 + x * x * x * x * x / 120)%float.
Definition cos (x : float) : float := (1 - x * x / 2 + x * x * x * x / 24)%float.

#[export] Instance math : JSMath := {| Math_sin := sin; Math_cos := cos |}.

Definition vertex0 : cube.Vertex :=
  {| cube.position := (1, 1, 1, 1)%float; cube.uv := (0, 0)%float |}.

Definition vertices : vec cube.Vertex cube.cubeVertexCount :=
  vreplicate cube.cubeVertexCount vertex0.

End Reference.

(** * Properties *)

(** ** The aspect ratio *)

Lemma binary_round_aux_nonneg mx ex lx :
  SFabs (binary_round_aux prec emax false mx ex lx)
  = binary_round_aux prec emax false mx ex lx.
Proof.
  unfold binary_round_aux.
  destruct (shr_fexp prec emax mx ex lx) as [mrs' e'].
  destruct (shr_fexp prec emax _ e' loc_Exact) as [mrs'' e''].
  destruct (shr_m mrs''); [done| |done].
  by destruct (Z.leb e'' (emax - prec)).
Qed.

Lemma of_uint63_nonneg n :
  SFabs (Prim2SF (PrimFloat.of_uint63 n)) = Prim2SF (PrimFloat.of_uint63 n).
Proof.
  rewrite of_uint63_spec. unfold binary_normalize.
  pose proof (Uint63.to_Z_bounded n) as Hn.
  destruct (Uint63.to_Z n) as [|m|m]; [done| |lia].
  unfold binary_round.
  destruct (shl_align m 0 _) as [mz ez]. apply binary_round_aux_nonneg.
Qed.

Lemma SFdiv_nonneg x y :
  SFabs x = x → SFabs y = y → SFabs (SFdiv prec emax x y) = SFdiv prec emax x y.
Proof.
  destruct x as [sx|sx| |sx mx ex], y as [sy|sy| |sy my ey]; simpl;
    intros Hx Hy; try done; simplify_eq; try done.
  destruct (SFdiv_core_binary prec emax (Z.pos mx) ex (Z.pos my) ey) as [[mz ez] lz].
  apply binary_round_aux_nonneg.
Qed.

(** The quotient of two unsigned integers is its own absolute value. *)
Lemma abs_ratio (m n : N) :
  Math_abs (Number.of_ulong m / Number.of_ulong n)
  = (Number.of_ulong m / Number.of_ulong n)%float.
Proof.
  apply Prim2SF_inj. unfold Math_abs, Number.of_ulong.
  rewrite abs_spec, div_spec. apply SFdiv_nonneg; apply of_uint63_nonneg.
Qed.

Lemma aspect_ratio canvas :
  aspect canvas
  = (Number.of_ulong (canvas_width canvas) / Number.of_ulong (canvas_height canvas))%float.
Proof. apply abs_ratio. Qed.

(** ** Observations on appended calls *)

Section Calls.
Context `{JSMath} `{GlMatrix}.

Lemma last_write_app buffer (cs new : list GPUCall) :
  last_write buffer (cs ++ new)
  = match last_write buffer new with
    | Some x => Some x
    | None => last_write buffer cs
    end.
Proof.
  unfold last_write. rewrite omap_app.
  destruct (omap _ new) as [|x l] using rev_ind; [by rewrite app_nil_r|].
  by rewrite app_assoc, !last_snoc.
Qed.

Lemma omap_frame_only {A} (f : GPUCall → option A) (new : list GPUCall) :
  (∀ c, frame_only c → f c = None) → Forall frame_only new → omap f new = [].
Proof.
  intros Hf. induction 1 as [|c new Hc _ IH]; [done|].
  cbn. by rewrite (Hf c Hc), IH.
Qed.

Lemma buffer_descriptor_app buffer (cs new : list GPUCall) :
  Forall frame_only new →
  buffer_descriptor buffer (cs ++ new) = buffer_descriptor buffer cs.
Proof.
  intros Hnew. unfold buffer_descriptor. rewrite omap_app, (omap_frame_only _ new), ?app_nil_r; [done| |done].
  intros [] [Hp _]; try done; discriminate Hp.
Qed.

Lemma pipeline_descriptor_of_app p (cs new : list GPUCall) :
  Forall frame_only new →
  pipeline_descriptor_of p (cs ++ new) = pipeline_descriptor_of p cs.
Proof.
  intros Hnew. unfold pipeline_descriptor_of.
  rewrite omap_app, (omap_frame_only _ new), ?app_nil_r; [done| |done].
  intros [] [Hp _]; try done; discriminate Hp.
Qed.



(** The render pass of the calls one frame makes. *)
Lemma render_passes_frame (env : Env) (h : handle) data d :
  render_passes
    [ writeBuffer (uniformBuffer env) 0 data 0 64;
      getCurrentTexture (swapChain env) h;
      createView h (S h);
      createCommandEncoder (S (S h));
      beginRenderPass (S (S h)) d (S (S (S h)));
      setPipeline (S (S (S h))) (pipeline env);
      setBindGroup (S (S (S h))) 0 (uniformBindGroup env);
      setVertexBuffer (S (S (S h))) 0 (verticesBuffer env);
      draw (S (S (S h))) 36 1 0 0;
      endPass (S (S (S h)));
      finish (S (S h)) (S (S (S (S h))));
      submit [S (S (S (S h)))] ]
  = [ (S (S (S h)), d,
       [ setPipeline (S (S (S h))) (pipeline env);
         setBindGroup (S (S (S h))) 0 (uniformBindGroup env);
         setVertexBuffer (S (S (S h))) 0 (verticesBuffer env);
         draw (S (S (S h))) 36 1 0 0 ]) ].
Proof.
  unfold render_passes. cbn [omap list_omap]. f_equal. f_equal.
  generalize (S (S (S h))). intros p.
  repeat first [ rewrite filter_cons_True by reflexivity
               | rewrite filter_cons_False by discriminate ].
  reflexivity.
Qed.

End Calls.

(** ** Running [init] and [frame] *)

Section Run.
Context `{JSMath} `{GlMatrix}.
Variable cubeVertices : vec cube.Vertex cube.cubeVertexCount.

Ltac js_unfold :=
  unfold frame, set_color_attachment, getTransformationMatrix, mat4_multiply, mat4_rotate,
    mat4_translate, mat4_perspective, mat4_create, vec3_fromValues, read_mat4, read_vec3,
    read_typed, read_descriptor, new_object, read, write, call, create, throw,
    mbind, mret, JS_bind, JS_ret.

Ltac js_run :=
  repeat (progress (rewrite ?lookup_insert_eq; rewrite ?lookup_insert_ne by lia; cbn)).

(** One call of [frame], from any state in which the projection matrix and
    the descriptor exist. *)
Lemma frame_spec env now w P d c :
  store w !! projectionMatrix env = Some (typed (f32x16 P)) →
  store w !! renderPassDescriptor env = Some (descriptor d) →
  colorAttachments d !! 0%nat = Some c →
  (projectionMatrix env < next_loc w)%nat →
  (renderPassDescriptor env < next_loc w)%nat →
  let h := next_handle w in
  let M := mat4_multiply_v P
             (mat4_rotate_v (mat4_translate_v mat4_create_v (vec3_fromValues_v 0 0 (-4))) 1
                (vec3_fromValues_v (Math_sin (seconds now)) (Math_cos (seconds now)) 0)) in
  let d' := {| colorAttachments :=
                 <[0%nat := {| attachment := Some (S h); loadValue := loadValue c;
                               storeOp := storeOp c |}]> (colorAttachments d);
               depthStencilAttachment := depthStencilAttachment d |} in
  ∃ w', frame env now w = Some ((), w')
    ∧ calls w' = calls w ++
        [ writeBuffer (uniformBuffer env) 0 (f32x16 M) 0 64;
          getCurrentTexture (swapChain env) h;
          createView h (S h);
          createCommandEncoder (S (S h));
          beginRenderPass (S (S h)) d' (S (S (S h)));
          setPipeline (S (S (S h))) (pipeline env);
          setBindGroup (S (S (S h))) 0 (uniformBindGroup env);
          setVertexBuffer (S (S (S h))) 0 (verticesBuffer env);
          draw (S (S (S h))) 36 1 0 0;
          endPass (S (S (S h)));
          finish (S (S h)) (S (S (S (S h))));
          submit [S (S (S (S h)))] ]
    ∧ store w' !! renderPassDescriptor env = Some (descriptor d')
    ∧ (∀ l, (l < next_loc w)%nat → l ≠ renderPassDescriptor env →
         store w' !! l = store w !! l)
    ∧ (∀ l, is_Some (store w' !! l) →
         is_Some (store w !! l) ∨ (next_loc w ≤ l < next_loc w')%nat)
    ∧ next_loc w' = (4 + next_loc w)%nat
    ∧ next_handle w' = (5 + next_handle w)%nat.
Proof.
  intros HP Hd Hc Hlt1 Hlt2 h M d'. js_unfold. cbn. js_run.
  rewrite HP. js_run. rewrite Hd. cbn. rewrite Hc. js_run.
  eexists; split; [reflexivity|]. cbn.
  split. { rewrite <- !app_assoc. reflexivity. }
  split. { by rewrite lookup_insert_eq. }
  split. { intros l Hl Hne. by rewrite !lookup_insert_ne by lia. }
  split; [|done].
  intros l. rewrite !lookup_insert_is_Some.
  intros [<-|Hl]; [left; eexists; exact Hd|].
  destruct (decide (is_Some (store w !! l))); [by left|right].
  intuition lia.
Qed.

Lemma frame_ready canvas depthView env now w :
  ready canvas depthView env w →
  ∃ w' new, frame env now w = Some ((), w')
    ∧ ready canvas depthView env w'
    ∧ calls w' = calls w ++ new
    ∧ Forall frame_only new.
Proof.
  intros (HP & [view Hd] & Hwf).
  destruct (frame_spec env now w _ _ _ HP Hd eq_refl) as (w' & Hrun & Hcalls & Hd' & Hold & Hnew & Hloc & _).
  { apply Hwf. by eexists. }
  { apply Hwf. by eexists. }
  eexists w', _. split; [exact Hrun|]. split; [|split; [exact Hcalls|]].
  - split; [|split].
    + rewrite Hold; [exact HP| |].
      * apply Hwf. by eexists.
      * intros Heq. rewrite Heq, Hd in HP. discriminate HP.
    + eexists. exact Hd'.
    + intros l Hl. destruct (Hnew l Hl) as [Hl'|Hl']; [|lia].
      apply Hwf in Hl'. lia.
  - repeat constructor.
Qed.

Lemma frames_ready canvas depthView env clock :
  ∀ w, ready canvas depthView env w →
  ∃ w' new, frames env clock w = Some ((), w')
    ∧ ready canvas depthView env w'
    ∧ calls w' = calls w ++ new
    ∧ Forall frame_only new.
Proof.
  induction clock as [|t clock IH]; intros w Hw.
  - exists w, []. by rewrite app_nil_r.
  - destruct (frame_ready canvas depthView env t w Hw) as (w1 & new1 & Hrun1 & Hw1 & Hc1 & Hf1).
    destruct (IH w1 Hw1) as (w2 & new2 & Hrun2 & Hw2 & Hc2 & Hf2).
    exists w2, (new1 ++ new2). split; [|split; [done|split]].
    + cbn. unfold mbind, JS_bind. by rewrite Hrun1.
    + by rewrite Hc2, Hc1, app_assoc.
    + by apply Forall_app.
Qed.

(** [init] on a fresh page. *)
Lemma init_spec canvas useWGSL img :
  init cubeVertices canvas useWGSL img World0
  = Some (env0,
          {| store := <[1%nat := descriptor (initial_renderPassDescriptor depthView0)]>
                        (<[0%nat := typed (f32x16 (mat4_perspective_v fovy (aspect canvas) 1 100))]> ∅);
             next_loc := 2%nat; next_handle := 18%nat;
             calls := init_calls cubeVertices canvas useWGSL img |}).
Proof. vm_compute. reflexivity. Qed.

Lemma init_ready canvas useWGSL img :
  ∃ w, init cubeVertices canvas useWGSL img World0 = Some (env0, w)
    ∧ ready canvas depthView0 env0 w
    ∧ calls w = init_calls cubeVertices canvas useWGSL img.
Proof.
  eexists. split; [apply init_spec|]. split; [|done].
  split; [|split]; cbn.
  - by rewrite lookup_insert_ne, lookup_insert_eq.
  - exists None. by rewrite lookup_insert_eq.
  - intros l. rewrite !lookup_insert_is_Some, lookup_empty.
    intros [<-|[_ [<-|[_ []%is_Some_None]]]]; lia.
Qed.

(** A session runs to the end, whatever the canvas, the dialect, the image
    and the clock. *)
Lemma session_spec canvas useWGSL img clock :
  ∃ w new, session cubeVertices canvas useWGSL img clock = Some (env0, w)
    ∧ ready canvas depthView0 env0 w
    ∧ calls w = init_calls cubeVertices canvas useWGSL img ++ new
    ∧ Forall frame_only new.
Proof.
  destruct (init_ready canvas useWGSL img) as (w0 & Hinit & Hw0 & Hc0).
  destruct (frames_ready canvas depthView0 env0 clock w0 Hw0) as (w & new & Hrun & Hw & Hc & Hf).
  exists w, new. split; [|split; [done|split; [|done]]].
  - unfold session, mbind, JS_bind. rewrite Hinit, Hrun. reflexivity.
  - by rewrite Hc, Hc0.
Qed.

End Run.

(** ** The sample's properties *)

Section Claims.
Context `{JSMath} `{GlMatrix}.
Variable cubeVertices : vec cube.Vertex cube.cubeVertexCount.

Lemma interleaved_length (l : list cube.Vertex) :
  length (l ≫= cube.interleaved) = (6 * length l)%nat.
Proof.
  induction l as [|v l IH]; [done|].
  rewrite bind_cons, length_app, IH.
  destruct v as [[[[x y] z] w] [s t]]. cbn. lia.
Qed.

Lemma cubeVertexArray_byteLength :
  elements_byteLength (cube.cubeVertexArray cubeVertices) = 864.
Proof.
  unfold elements_byteLength, cube.cubeVertexArray.
  rewrite interleaved_length, length_vec_to_list. reflexivity.
Qed.

(** What a frame writes after any session. *)
Lemma frame_writes_matrix canvas useWGSL img clock now
    (vs : vec cube.Vertex cube.cubeVertexCount) :
  ∃ w w',
    session vs canvas useWGSL img clock = Some (env0, w)
    ∧ frame env0 now w = Some ((), w')
    ∧ last_write (uniformBuffer env0) (calls w')
      = Some (0, f32x16
                (mat4_multiply_v
                   (mat4_perspective_v fovy (aspect canvas) 1 100)
                   (mat4_rotate_v
                      (mat4_translate_v mat4_create_v (vec3_fromValues_v 0 0 (-4))) 1
                      (vec3_fromValues_v (Math_sin (seconds now)) (Math_cos (seconds now)) 0))),
              0, 64).
Proof.
  destruct (session_spec vs canvas useWGSL img clock)
    as (w & new & Hs & (HP & [view Hd] & Hwf) & _).
  destruct (frame_spec env0 now w _ _ _ HP Hd eq_refl) as (w' & Hrun & Hcalls & _).
  { apply Hwf. by eexists. }
  { apply Hwf. by eexists. }
  exists w, w'. split; [exact Hs|]. split; [exact Hrun|].
  rewrite Hcalls, last_write_app. reflexivity.
Qed.

(** C1: every frame writes projection x view to the uniform buffer, the view
    being the identity translated by (0,0,-4) and then rotated by 1 radian
    about (sin t, cos t, 0), with t = Date.now() / 1000, the time in seconds;
    when the clock reads 0 and the sine and cosine of 0 are 0 and 1, the axis
    is (0,1,0). *)
Theorem frame_writes_projection_times_view canvas useWGSL img clock now :
  ∃ w w',
    session cubeVertices canvas useWGSL img clock = Some (env0, w)
    ∧ frame env0 now w = Some ((), w')
    ∧ last_write (uniformBuffer env0) (calls w')
      = Some (0, f32x16
                (mat4_multiply_v
                   (mat4_perspective_v fovy (aspect canvas) 1 100)
                   (mat4_rotate_v
                      (mat4_translate_v mat4_create_v (vec3_fromValues_v 0 0 (-4))) 1
                      (vec3_fromValues_v (Math_sin (now / 1000)) (Math_cos (now / 1000)) 0))),
              0, 64)
    ∧ (Math_sin 0 = 0%float → Math_cos 0 = 1%float → now = 0%float →
       last_write (uniformBuffer env0) (calls w')
       = Some (0, f32x16
                 (mat4_multiply_v
                    (mat4_perspective_v fovy (aspect canvas) 1 100)
                    (mat4_rotate_v
                       (mat4_translate_v mat4_create_v (vec3_fromValues_v 0 0 (-4))) 1
                       (vec3_fromValues_v 0 1 0))),
               0, 64)).
Proof.
  destruct (frame_writes_matrix canvas useWGSL img clock now cubeVertices)
    as (w & w' & Hs & Hrun & Hlast).
  exists w, w'. split; [exact Hs|]. split; [exact Hrun|].
  unfold seconds in Hlast.
  split; [exact Hlast|].
  intros Hsin Hcos ->. rewrite Hlast.
  change (0 / 1000)%float with 0%float. by rewrite Hsin, Hcos.
Qed.

(** C2: the vertex buffer holds 36 vertices of 24 bytes, 864 bytes in all,
    and the pipeline reads it with that stride, the position at offset 0 and
    the UV right after it. *)
Theorem vertex_buffer_matches_layout canvas useWGSL img :
  ∃ w desc pd attrs,
    init cubeVertices canvas useWGSL img World0 = Some (env0, w)
    ∧ buffer_descriptor (verticesBuffer env0) (calls w) = Some desc
    ∧ buf_size desc = Z.of_nat cube.cubeVertexCount * cube.cubeVertexSize
    ∧ cube.cubeVertexSize = vertexFormatSize float32x4 + vertexFormatSize float32x2
    ∧ cube.cubeVertexSize = 24
    ∧ buf_size desc = 864
    ∧ pipeline_descriptor_of (pipeline env0) (calls w) = Some pd
    ∧ buffers (vertex pd) = [ {| arrayStride := 24; attributes := attrs |} ]
    ∧ map format attrs = [float32x4; float32x2]
    ∧ map shaderLocation attrs = [0; 1]
    ∧ interleaved_layout 0 attrs 24.
Proof.
  eexists _, _, _, _. split; [apply init_spec|]. cbn [calls].
  split; [vm_compute; reflexivity|]. cbn [buf_size].
  split; [apply cubeVertexArray_byteLength|].
  split; [reflexivity|]. split; [reflexivity|].
  split; [apply cubeVertexArray_byteLength|].
  split; [vm_compute; reflexivity|].
  split; [reflexivity|]. split; [reflexivity|]. split; [reflexivity|].
  cbn. done.
Qed.

(** C3: the uniform buffer is created with 64 bytes, and every frame writes
    the whole matrix, 64 bytes from offset 0, and nothing else to it. *)
Theorem uniform_buffer_fully_overwritten canvas useWGSL img clock now :
  ∃ w w' new desc data,
    session cubeVertices canvas useWGSL img clock = Some (env0, w)
    ∧ frame env0 now w = Some ((), w')
    ∧ buffer_descriptor (uniformBuffer env0) (init_calls cubeVertices canvas useWGSL img)
      = Some desc
    ∧ buffer_descriptor (uniformBuffer env0) (calls w') = Some desc
    ∧ buf_size desc = 64
    ∧ calls w' = calls w ++ new
    ∧ omap uploads_to new = [uniformBuffer env0]
    ∧ last_write (uniformBuffer env0) new
      = Some (0, data, byteOffset data, byteLength data)
    ∧ last_write (uniformBuffer env0) (calls w')
      = Some (0, data, byteOffset data, byteLength data)
    ∧ byteLength data = buf_size desc.
Proof.
  destruct (session_spec cubeVertices canvas useWGSL img clock)
    as (w & new0 & Hs & (HP & [view Hd] & Hwf) & Hc & Hf).
  destruct (frame_spec env0 now w _ _ _ HP Hd eq_refl) as (w' & Hrun & Hcalls & _).
  { apply Hwf. by eexists. }
  { apply Hwf. by eexists. }
  assert (buffer_descriptor (uniformBuffer env0) (init_calls cubeVertices canvas useWGSL img)
          = Some {| buf_size := uniformBufferSize;
                    buf_usage := Z.lor GPUBufferUsage.UNIFORM GPUBufferUsage.COPY_DST;
                    mappedAtCreation := None |}) as Hdesc.
  { vm_compute. reflexivity. }
  match type of Hcalls with
  | context [writeBuffer _ _ ?data _ _] => eexists w, w', _, _, data
  end.
  split; [exact Hs|]. split; [exact Hrun|].
  split; [exact Hdesc|].
  split.
  { rewrite Hcalls, Hc, !buffer_descriptor_app; [exact Hdesc|done|repeat constructor]. }
  split; [reflexivity|].
  split; [exact Hcalls|].
  split; [reflexivity|].
  split; [reflexivity|].
  split; [|reflexivity].
  rewrite Hcalls, last_write_app. reflexivity.
Qed.

(** C6: the projection matrix is the perspective matrix for the canvas's
    width over its height with near plane 1 and far plane 100, at the end of
    [init] and after any number of frames. *)
Theorem projection_matrix_fixed canvas useWGSL img clock :
  ∃ w,
    session cubeVertices canvas useWGSL img clock = Some (env0, w)
    ∧ store w !! projectionMatrix env0
      = Some (typed (f32x16
          (mat4_perspective_v ((2 * Number.PI) / 5)
             (Number.of_ulong (canvas_width canvas) / Number.of_ulong (canvas_height canvas))
             1 100))).
Proof.
  destruct (session_spec cubeVertices canvas useWGSL img clock)
    as (w & new & Hs & (HP & _) & _).
  exists w. split; [exact Hs|]. by rewrite <- aspect_ratio.
Qed.

(** C7: every frame records one render pass on the pipeline, the bind group
    and the vertex buffer, with one draw of 36 vertices and 1 instance and
    no index buffer; the pass clears color to (0.5,0.5,0.5,1), depth to 1 and
    stencil to 0 and stores color, depth and stencil; the pipeline culls back
    faces, draws a triangle list, compares depth with "less" and writes it. *)
Theorem frame_records_one_pass canvas useWGSL img clock now :
  ∃ w w' new pass d c pd commandBuffer,
    session cubeVertices canvas useWGSL img clock = Some (env0, w)
    ∧ frame env0 now w = Some ((), w')
    ∧ calls w' = calls w ++ new
    ∧ render_passes new
      = [ (pass, d,
           [ setPipeline pass (pipeline env0);
             setBindGroup pass 0 (uniformBindGroup env0);
             setVertexBuffer pass 0 (verticesBuffer env0);
             draw pass 36 1 0 0 ]) ]
    ∧ endPass pass ∈ new
    ∧ submitted new = [[commandBuffer]]
    ∧ colorAttachments d = [c]
    ∧ loadValue c = clear_to {| r := 0.5; g := 0.5; b := 0.5; alpha := 1 |}
    ∧ effective_storeOp (storeOp c) = op_store
    ∧ depthLoadValue (depthStencilAttachment d) = clear_to 1%float
    ∧ stencilLoadValue (depthStencilAttachment d) = clear_to 0
    ∧ depthStoreOp (depthStencilAttachment d) = op_store
    ∧ stencilStoreOp (depthStencilAttachment d) = op_store
    ∧ omap (λ call, match call with createBindGroup _ g => Some g | _ => None end) (calls w')
      = [uniformBindGroup env0]
    ∧ pipeline_descriptor_of (pipeline env0) (calls w') = Some pd
    ∧ cullMode (primitive pd) = cull_back
    ∧ topology (primitive pd) = triangle_list
    ∧ depthCompare (depthStencil pd) = cmp_less
    ∧ depthWriteEnabled (depthStencil pd) = true.
Proof.
  destruct (session_spec cubeVertices canvas useWGSL img clock)
    as (w & new0 & Hs & (HP & [view Hd] & Hwf) & Hc & Hf).
  destruct (frame_spec env0 now w _ _ _ HP Hd eq_refl) as (w' & Hrun & Hcalls & _).
  { apply Hwf. by eexists. }
  { apply Hwf. by eexists. }
  eexists w, w', _, _, _, _, (pipeline_descriptor 6%nat 7%nat 8%nat), _.
  split; [exact Hs|]. split; [exact Hrun|]. split; [exact Hcalls|].
  split.
  { apply render_passes_frame. }
  split; [repeat constructor|].
  split; [reflexivity|].
  split; [reflexivity|]. split; [reflexivity|]. split; [reflexivity|].
  split; [reflexivity|]. split; [reflexivity|]. split; [reflexivity|].
  split; [reflexivity|].
  split.
  { rewrite Hcalls, Hc, !omap_app.
    rewrite (omap_frame_only _ new0), app_nil_r; [by vm_compute| |done].
    intros [] [Hp _]; try done; discriminate Hp. }
  split.
  { rewrite Hcalls, Hc, !pipeline_descriptor_of_app; [|done|repeat constructor].
    vm_compute. reflexivity. }
  repeat split.
Qed.

(** C8: the matrix a frame writes depends on the canvas through its aspect
    ratio only and on the clock through the time in seconds only: not on the
    canvas size, the dialect, the image, the mesh or the frames before. *)
Theorem transformation_deterministic
    (cubeVertices' : vec cube.Vertex cube.cubeVertexCount)
    canvas canvas' useWGSL useWGSL' img img' clock clock' now now' :
  aspect canvas = aspect canvas' →
  seconds now = seconds now' →
  ∃ w1 w1' w2 w2' M,
    session cubeVertices canvas useWGSL img clock = Some (env0, w1)
    ∧ frame env0 now w1 = Some ((), w1')
    ∧ session cubeVertices' canvas' useWGSL' img' clock' = Some (env0, w2)
    ∧ frame env0 now' w2 = Some ((), w2')
    ∧ last_write (uniformBuffer env0) (calls w1') = Some (0, f32x16 M, 0, 64)
    ∧ last_write (uniformBuffer env0) (calls w2') = Some (0, f32x16 M, 0, 64).
Proof.
  intros Haspect Hnow.
  destruct (frame_writes_matrix canvas useWGSL img clock now cubeVertices)
    as (w1 & w1' & Hs1 & Hf1 & Hl1).
  destruct (frame_writes_matrix canvas' useWGSL' img' clock' now' cubeVertices')
    as (w2 & w2' & Hs2 & Hf2 & Hl2).
  eexists w1, w1', w2, w2', _.
  split; [exact Hs1|]. split; [exact Hf1|]. split; [exact Hs2|]. split; [exact Hf2|].
  split; [exact Hl1|]. rewrite Hl2, Haspect, Hnow. reflexivity.
Qed.

(** C10: among the objects that exist when a frame starts, the frame changes
    the descriptor only, and there only the view of the first color
    attachment, which becomes a view of the swap chain's current texture;
    the load value, the store operation, the depth-stencil attachment and
    the projection matrix stay; the only upload is to the uniform buffer. *)
Theorem frame_mutates_only_color_attachment canvas useWGSL img clock now :
  ∃ w w' new d d' c c' texture view,
    session cubeVertices canvas useWGSL img clock = Some (env0, w)
    ∧ frame env0 now w = Some ((), w')
    ∧ store w !! renderPassDescriptor env0 = Some (descriptor d)
    ∧ store w' !! renderPassDescriptor env0 = Some (descriptor d')
    ∧ colorAttachments d = [c]
    ∧ colorAttachments d' = [c']
    ∧ attachment c' = Some view
    ∧ loadValue c' = loadValue c
    ∧ storeOp c' = storeOp c
    ∧ depthStencilAttachment d' = depthStencilAttachment d
    ∧ calls w' = calls w ++ new
    ∧ getCurrentTexture (swapChain env0) texture ∈ new
    ∧ createView texture view ∈ new
    ∧ omap uploads_to new = [uniformBuffer env0]
    ∧ (∀ l, is_Some (store w !! l) → l ≠ renderPassDescriptor env0 →
         store w' !! l = store w !! l)
    ∧ store w' !! projectionMatrix env0 = store w !! projectionMatrix env0.
Proof.
  destruct (session_spec cubeVertices canvas useWGSL img clock)
    as (w & new0 & Hs & (HP & [view Hd] & Hwf) & Hc & Hf).
  destruct (frame_spec env0 now w _ _ _ HP Hd eq_refl)
    as (w' & Hrun & Hcalls & Hd' & Hold & _).
  { apply Hwf. by eexists. }
  { apply Hwf. by eexists. }
  eexists w, w', _, _, _, _, _, _, _.
  split; [exact Hs|]. split; [exact Hrun|]. split; [exact Hd|]. split; [exact Hd'|].
  split; [reflexivity|]. split; [reflexivity|]. split; [reflexivity|].
  split; [reflexivity|]. split; [reflexivity|]. split; [reflexivity|].
  split; [exact Hcalls|].
  split; [repeat constructor|]. split; [repeat constructor|].
  split; [reflexivity|].
  split.
  - intros l Hl Hne. apply Hold; [by apply Hwf|done].
  - apply Hold.
    + apply Hwf. by eexists.
    + intros Heq. rewrite Heq, Hd in HP. discriminate HP.
Qed.

End Claims.

(** ** The shaders' properties *)

Section ShaderClaims.
Context `{GPUArith}.

(** C4: in either dialect the vertex stage returns the matrix times the
    position, the UV unchanged, and 0.5 * (position + 1) in every component;
    the fragment stage returns the sampled color times the pseudo-color in
    every component. *)
Theorem shader_stages_compute (useWGSL : bool) :
  ∃ vs fs,
    vertex_stage (code (vertex_shader_descriptor useWGSL)) = Some vs
    ∧ fragment_stage (code (fragment_shader_descriptor useWGSL)) = Some fs
    ∧ (∀ m position uv i,
         vec4.get i (Position (vs m position uv))
         = f32_add
             (f32_add
                (f32_add (f32_mul (vec4.get i (mat4x4.c0 m)) (vec4.x position))
                         (f32_mul (vec4.get i (mat4x4.c1 m)) (vec4.y position)))
                (f32_mul (vec4.get i (mat4x4.c2 m)) (vec4.z position)))
             (f32_mul (vec4.get i (mat4x4.c3 m)) (vec4.w position)))
    ∧ (∀ m position uv, fragUV (vs m position uv) = uv)
    ∧ (∀ m position uv i,
         vec4.get i (fragPosition (vs m position uv))
         = f32_mul (f32_literal 0.5) (f32_add (vec4.get i position) (f32_literal 1.0)))
    ∧ (∀ myTexture mySampler uv pseudoColor i,
         vec4.get i (fs myTexture mySampler uv pseudoColor)
         = f32_mul (vec4.get i (image_sample myTexture mySampler uv))
                   (vec4.get i pseudoColor)).
Proof.
  destruct useWGSL; eexists _, _; (split; [reflexivity|]); (split; [reflexivity|]);
    repeat split; intros; by destruct i.
Qed.

(** C5: the GLSL pair and the WGSL pair agree: the vertex stages return the
    same outputs, the fragment stages the same color, and a fragment drawn
    through either pipeline gets the same color. *)
Theorem dialects_equivalent :
  (∃ glsl wgsl,
     vertex_stage (code (vertex_shader_descriptor false)) = Some glsl
     ∧ vertex_stage (code (vertex_shader_descriptor true)) = Some wgsl
     ∧ ∀ m position uv, glsl m position uv = wgsl m position uv)
  ∧ (∃ glsl wgsl,
       fragment_stage (code (fragment_shader_descriptor false)) = Some glsl
       ∧ fragment_stage (code (fragment_shader_descriptor true)) = Some wgsl
       ∧ ∀ myTexture mySampler uv pseudoColor,
           glsl myTexture mySampler uv pseudoColor = wgsl myTexture mySampler uv pseudoColor)
  ∧ (∀ interpolate m myTexture mySampler vertices,
       ∃ color,
         fragment_color false interpolate m myTexture mySampler vertices = Some color
         ∧ fragment_color true interpolate m myTexture mySampler vertices = Some color).
Proof.
  split; [|split].
  - eexists _, _. split; [reflexivity|]. split; [reflexivity|]. reflexivity.
  - eexists _, _. split; [reflexivity|]. split; [reflexivity|]. reflexivity.
  - intros. eexists. split; reflexivity.
Qed.

End ShaderClaims.

(** ** The properties at the reference instance *)

Section Witnesses.
Local Existing Instance Reference.gl_matrix.
Local Existing Instance Reference.math.

Lemma frame_writes_projection_times_view_witness :
  ∃ w w',
    session Reference.vertices {| canvas_width := 600; canvas_height := 600 |} true
      {| bitmap_width := 256; bitmap_height := 256 |} [16%float] = Some (env0, w)
    ∧ frame env0 0 w = Some ((), w')
    ∧ last_write (uniformBuffer env0) (calls w')
      = Some (0, f32x16
                 (Reference.multiply
                    (Reference.perspective fovy 1 1 100)
                    (Reference.rotate (Reference.translate Reference.identity (0, 0, -4)%float)
                       1 (0, 1, 0)%float)),
              0, 64).
Proof.
  destruct (frame_writes_projection_times_view Reference.vertices
              {| canvas_width := 600; canvas_height := 600 |} true
              {| bitmap_width := 256; bitmap_height := 256 |} [16%float] 0%float)
    as (w & w' & Hs & Hf & _ & Hzero).
  exists w, w'. split; [exact Hs|]. split; [exact Hf|].
  exact (Hzero eq_refl eq_refl eq_refl).
Defined.

Lemma transformation_deterministic_witness :
  aspect {| canvas_width := 600; canvas_height := 600 |}
  = aspect {| canvas_width := 300; canvas_height := 300 |}
  ∧ seconds 1000 = seconds 1000
  ∧ ∃ w1 w1' w2 w2' M,
      session Reference.vertices {| canvas_width := 600; canvas_height := 600 |} true
        {| bitmap_width := 256; bitmap_height := 256 |} [0%float; 16%float] = Some (env0, w1)
      ∧ frame env0 1000 w1 = Some ((), w1')
      ∧ session Reference.vertices {| canvas_width := 300; canvas_height := 300 |} false
          {| bitmap_width := 64; bitmap_height := 32 |} [] = Some (env0, w2)
      ∧ frame env0 1000 w2 = Some ((), w2')
      ∧ last_write (uniformBuffer env0) (calls w1') = Some (0, f32x16 M, 0, 64)
      ∧ last_write (uniformBuffer env0) (calls w2') = Some (0, f32x16 M, 0, 64).
Proof.
  split; [reflexivity|]. split; [reflexivity|].
  apply (transformation_deterministic Reference.vertices Reference.vertices);
    reflexivity.
Defined.

End Witnesses.

(** * Further properties of the sample *)

Section SessionTrace.
Context `{JSMath} `{GlMatrix}.
Variable cubeVertices : vec cube.Vertex cube.cubeVertexCount.

Lemma frame_trace canvas now w :
  ready canvas depthView0 env0 w →
  ∃ w', frame env0 now w = Some ((), w')
    ∧ ready canvas depthView0 env0 w'
    ∧ calls w' = calls w ++
        frame_calls env0 (f32x16 (modelViewProjection canvas now))
          (renderPassDescriptor_state (Some (S (next_handle w))) depthView0) (next_handle w)
    ∧ next_handle w' = (5 + next_handle w)%nat
    ∧ next_loc w' = (4 + next_loc w)%nat.
Proof.
  intros (HP & [view Hd] & Hwf).
  destruct (frame_spec env0 now w _ _ _ HP Hd eq_refl)
    as (w' & Hrun & Hcalls & Hd' & Hold & Hnew & Hloc & Hh).
  { apply Hwf. by eexists. }
  { apply Hwf. by eexists. }
  exists w'. split; [exact Hrun|]. split; [|split; [exact Hcalls|by split]].
  split; [|split].
  - rewrite Hold; [exact HP| |].
    + apply Hwf. by eexists.
    + intros Heq. rewrite Heq, Hd in HP. discriminate HP.
  - eexists. exact Hd'.
  - intros l Hl. destruct (Hnew l Hl) as [Hl'|Hl']; [|lia].
    apply Hwf in Hl'. lia.
Qed.

Lemma frames_trace canvas clock :
  ∀ w, ready canvas depthView0 env0 w →
  ∃ w', frames env0 clock w = Some ((), w')
    ∧ ready canvas depthView0 env0 w'
    ∧ calls w' = calls w ++ concat (session_frames canvas (next_handle w) clock)
    ∧ next_handle w' = (5 * length clock + next_handle w)%nat
    ∧ next_loc w' = (4 * length clock + next_loc w)%nat.
Proof.
  induction clock as [|t clock IH]; intros w Hw.
  - exists w. cbn. by rewrite app_nil_r.
  - destruct (frame_trace canvas t w Hw) as (w1 & Hrun1 & Hw1 & Hc1 & Hh1 & Hl1).
    destruct (IH w1 Hw1) as (w2 & Hrun2 & Hw2 & Hc2 & Hh2 & Hl2).
    exists w2. split; [|split; [done|split; [|split]]].
    + cbn. unfold mbind, JS_bind. by rewrite Hrun1.
    + rewrite Hc2, Hc1, Hh1. cbn [session_frames concat]. by rewrite <- app_assoc.
    + rewrite Hh2, Hh1. cbn [length]. lia.
    + rewrite Hl2, Hl1. cbn [length]. lia.
Qed.

(** The calls of a session are those of [init] followed by those of its
    frames. *)
Lemma session_trace canvas useWGSL img clock :
  ∃ w, session cubeVertices canvas useWGSL img clock = Some (env0, w)
    ∧ calls w = init_calls cubeVertices canvas useWGSL img
                ++ concat (session_frames canvas 18%nat clock)
    ∧ next_handle w = (18 + 5 * length clock)%nat
    ∧ next_loc w = (2 + 4 * length clock)%nat.
Proof.
  destruct (init_ready cubeVertices canvas useWGSL img) as (w0 & Hinit & Hw0 & Hc0).
  destruct (frames_trace canvas clock w0 Hw0) as (w & Hrun & Hw & Hc & Hh & Hl).
  assert (next_handle w0 = 18%nat ∧ next_loc w0 = 2%nat) as [Hh0 Hl0].
  { pose proof (init_spec cubeVertices canvas useWGSL img) as Hinit'.
    rewrite Hinit in Hinit'. injection Hinit' as ->. by split. }
  exists w. split; [|split; [|split]].
  - unfold session, mbind, JS_bind. rewrite Hinit, Hrun. reflexivity.
  - by rewrite Hc, Hc0, Hh0.
  - lia.
  - lia.
Qed.

(** Every call of the frames of a session satisfies what the calls of each
    single frame satisfy. *)
Lemma session_frames_Forall (Q : GPUCall → Prop) canvas clock :
  (∀ M view h,
     Forall Q (frame_calls env0 (f32x16 M)
                 (renderPassDescriptor_state (Some view) depthView0) h)) →
  ∀ h, Forall Q (concat (session_frames canvas h clock)).
Proof.
  intros HQ. induction clock as [|t clock IH]; intros h; [constructor|].
  cbn [session_frames concat]. apply Forall_app. split; [apply HQ|apply IH].
Qed.


End SessionTrace.

Section InitCalls.
Context `{JSMath} `{GlMatrix}.
Variable cubeVertices : vec cube.Vertex cube.cubeVertexCount.

(** The calls of [init], written out. *)
Lemma init_calls_eq canvas useWGSL img :
  init_calls cubeVertices canvas useWGSL img
  = [ requestAdapter 0;
      requestDevice 0 1;
      getContext 2;
      configureSwapChain 2 {| swap_device := 1; swap_format := bgra8unorm |} 3;
      createBuffer {| buf_size := elements_byteLength (cube.cubeVertexArray cubeVertices);
                      buf_usage := GPUBufferUsage.VERTEX;
                      mappedAtCreation := Some true |} 4;
      setMappedRange 4 (cube.cubeVertexArray cubeVertices);
      unmap 4;
      createBindGroupLayout bindGroupLayout_entries 5;
      createPipelineLayout [5] 6;
      createShaderModule (vertex_shader_descriptor useWGSL) 7;
      createShaderModule (fragment_shader_descriptor useWGSL) 8;
      createRenderPipeline (pipeline_descriptor 6 7 8) 9;
      createTexture {| tex_size := extent_dict (canvas_width canvas) (canvas_height canvas);
                       tex_format := depth24plus_stencil8;
                       tex_usage := GPUTextureUsage.RENDER_ATTACHMENT |} 10;
      createView 10 11;
      createBuffer {| buf_size := uniformBufferSize;
                      buf_usage := Z.lor GPUBufferUsage.UNIFORM GPUBufferUsage.COPY_DST;
                      mappedAtCreation := None |} 12;
      createTexture {| tex_size := extent_seq [bitmap_width img; bitmap_height img; 1%N];
                       tex_format := rgba8unorm;
                       tex_usage := Z.lor GPUTextureUsage.SAMPLED GPUTextureUsage.COPY_DST |}
                    13;
      copyImageBitmapToTexture img 13 [bitmap_width img; bitmap_height img; 1%N];
      createSampler {| magFilter := linear; minFilter := linear |} 14;
      getBindGroupLayout 9 0 15;
      createView 13 16;
      createBindGroup
        {| group_layout := 15;
           entries := [ {| binding := 0; resource := resource_buffer 12 |};
                        {| binding := 1; resource := resource_sampler 14 |};
                        {| binding := 2; resource := resource_view 16 |} ] |} 17 ]%nat.
Proof. vm_compute. reflexivity. Qed.

Lemma find_call_app {A} (f : GPUCall → option A) (cs new : list GPUCall) x :
  find_call f cs = Some x → find_call f (cs ++ new) = Some x.
Proof.
  unfold find_call. rewrite omap_app. by destruct (omap f cs).
Qed.

Lemma buffer_descriptor_stable b (cs new : list GPUCall) d :
  buffer_descriptor b cs = Some d → buffer_descriptor b (cs ++ new) = Some d.
Proof. apply (find_call_app _ cs new). Qed.

Lemma texture_descriptor_stable t (cs new : list GPUCall) d :
  texture_descriptor t cs = Some d → texture_descriptor t (cs ++ new) = Some d.
Proof. apply find_call_app. Qed.

Lemma allowed_stable (cs new : list GPUCall) c :
  allowed cs c → allowed (cs ++ new) c.
Proof.
  destruct c; cbn; try done.
  - intros (d & Hd & ?). exists d. by rewrite (buffer_descriptor_stable _ _ _ _ Hd).
  - intros (d & Hd & ?). exists d. by rewrite (texture_descriptor_stable _ _ _ _ Hd).
  - intros (d & Hd & ?). exists d. by rewrite (buffer_descriptor_stable _ _ _ _ Hd).
  - intros (d & Hd & ?). exists d. by rewrite (buffer_descriptor_stable _ _ _ _ Hd).
Qed.

End InitCalls.

Section SessionProperties.
Context `{JSMath} `{GlMatrix}.
Variable cubeVertices : vec cube.Vertex cube.cubeVertexCount.

(** X2: from any state that holds the projection matrix,
    [getTransformationMatrix] returns a new array holding projection x view,
    makes no call on the device and leaves every existing object as it was;
    a second call returns yet another array and leaves the first result
    alone. *)
Theorem getTransformationMatrix_fresh env now now' w P :
  store w !! projectionMatrix env = Some (typed (f32x16 P)) →
  (∀ l, is_Some (store w !! l) → (l < next_loc w)%nat) →
  ∃ result w',
    getTransformationMatrix env now w = Some (result, w')
    ∧ store w !! result = None
    ∧ store w' !! result
      = Some (typed (f32x16
          (mat4_multiply_v P
             (mat4_rotate_v
                (mat4_translate_v mat4_create_v (vec3_fromValues_v 0 0 (-4))) 1
                (vec3_fromValues_v (Math_sin (seconds now)) (Math_cos (seconds now)) 0)))))
    ∧ (∀ l, is_Some (store w !! l) → store w' !! l = store w !! l)
    ∧ calls w' = calls w
    ∧ next_handle w' = next_handle w
    ∧ next_loc w' = (4 + next_loc w)%nat
    ∧ ∃ result' w'',
        getTransformationMatrix env now' w' = Some (result', w'')
        ∧ result' ≠ result
        ∧ store w'' !! result = store w' !! result.
Proof.
  intros HP Hwf.
  assert (projectionMatrix env < next_loc w)%nat as Hlt by (apply Hwf; by eexists).
  assert (∀ l, (next_loc w ≤ l)%nat → store w !! l = None) as Hfree.
  { intros l Hl. destruct (store w !! l) eqn:Hl'; [|done].
    assert (l < next_loc w)%nat by (apply Hwf; by eexists). lia. }
  unfold getTransformationMatrix, mat4_multiply, mat4_rotate, mat4_translate, mat4_create,
    vec3_fromValues, read_mat4, read_vec3, new_object, read, write,
    mbind, mret, JS_bind, JS_ret.
  cbn.
  repeat (progress (rewrite ?lookup_insert_eq; rewrite ?lookup_insert_ne by lia;
                    rewrite ?HP; cbn)).
  eexists _, _. split; [reflexivity|]. cbn.
  split; [apply Hfree; lia|].
  split; [by rewrite lookup_insert_eq|].
  split. { intros l Hl. apply Hwf in Hl. by rewrite !lookup_insert_ne by lia. }
  split; [done|]. split; [done|]. split; [done|].
  repeat (progress (rewrite ?lookup_insert_eq; rewrite ?lookup_insert_ne by lia;
                    rewrite ?HP; cbn)).
  eexists _, _. split; [reflexivity|]. cbn.
  split; [lia|].
  do 7 (rewrite lookup_insert_ne by lia). by rewrite lookup_insert_eq.
Qed.

Lemma uploads_of_frames canvas clock :
  ∀ h, omap uploads_to (concat (session_frames canvas h clock))
       = replicate (length clock) (uniformBuffer env0).
Proof.
  induction clock as [|t clock IH]; intros h; [done|].
  cbn [session_frames concat]. rewrite omap_app, IH. reflexivity.
Qed.

(** X3: over a whole session the data uploads are one to the vertex buffer
    and one to the cube texture, by [init], and then one to the uniform
    buffer per frame: buffer and texture contents other than the uniform
    buffer's never change after [init]. *)
Theorem session_uploads canvas useWGSL img clock :
  ∃ w, session cubeVertices canvas useWGSL img clock = Some (env0, w)
    ∧ omap uploads_to (calls w)
      = [verticesBuffer env0; cubeTexture env0]
        ++ replicate (length clock) (uniformBuffer env0).
Proof.
  destruct (session_trace cubeVertices canvas useWGSL img clock) as (w & Hs & Hc & _).
  exists w. split; [exact Hs|].
  rewrite Hc, omap_app, uploads_of_frames, init_calls_eq. reflexivity.
Qed.

(** X4: every call of a session that writes a buffer, binds a vertex buffer,
    fills a mapped buffer or copies an image is one the device allows: the
    target was created with the usage the call needs, and the written range
    lies within the target and within the data. *)
Theorem session_calls_allowed canvas useWGSL img clock :
  ∃ w, session cubeVertices canvas useWGSL img clock = Some (env0, w)
    ∧ Forall (allowed (calls w)) (calls w).
Proof.
  destruct (session_trace cubeVertices canvas useWGSL img clock) as (w & Hs & Hc & _).
  exists w. split; [exact Hs|]. rewrite Hc.
  apply Forall_app. split.
  - apply (Forall_impl (allowed (init_calls cubeVertices canvas useWGSL img)));
      [|intros c; apply allowed_stable].
    rewrite init_calls_eq.
    repeat first [apply Forall_nil | apply Forall_cons; split]; try exact I.
    + eexists. split; [reflexivity|]. split; [reflexivity|]. cbn [buf_size]. lia.
    + eexists. split; [reflexivity|]. repeat split.
  - apply session_frames_Forall. intros M view h.
    repeat first [apply Forall_nil | apply Forall_cons; split]; try exact I.
    + apply allowed_stable. rewrite init_calls_eq.
      eexists. split; [reflexivity|]. cbn [buf_usage buf_size byteLength].
      split; [reflexivity|]. split; [lia|]. split; [reflexivity|].
      split; [lia|]. split; [reflexivity|]. reflexivity.
    + apply allowed_stable. rewrite init_calls_eq.
      eexists. split; [reflexivity|]. reflexivity.
Qed.

Lemma elem_of_concat {A} (x : A) (ls : list (list A)) :
  x ∈ concat ls ↔ ∃ l, x ∈ l ∧ l ∈ ls.
Proof.
  induction ls as [|l ls IH]; cbn.
  - split; [intros Hx; destruct (not_elem_of_nil _ Hx)|].
    intros (l & _ & Hl). destruct (not_elem_of_nil _ Hl).
  - rewrite elem_of_app, IH. split.
    + intros [Hx|(l' & Hx & Hl')]; [exists l|exists l']; split; try done.
      * apply list_elem_of_here.
      * by apply list_elem_of_further.
    + intros (l' & Hx & Hl'). apply elem_of_cons in Hl' as [->|Hl']; [by left|].
      right. by exists l'.
Qed.

Lemma session_frames_elem canvas clock l :
  ∀ h, l ∈ session_frames canvas h clock →
  ∃ M h', l = frame_calls env0 (f32x16 M)
                (renderPassDescriptor_state (Some (S h')) depthView0) h'.
Proof.
  induction clock as [|t clock IH]; intros h Hl; cbn in Hl.
  - destruct (not_elem_of_nil _ Hl).
  - apply elem_of_cons in Hl as [->|Hl]; [by eexists _, _|]. by eapply IH.
Qed.

(** X5: every render pass begun in a session has, as its color attachment,
    a view created in that session from the swap chain's current texture,
    never the [undefined] that [init] leaves in the descriptor, and as its
    depth attachment the one view of the depth texture that [init] created. *)
Theorem session_passes_attached canvas useWGSL img clock :
  ∃ w, session cubeVertices canvas useWGSL img clock = Some (env0, w)
    ∧ view_texture depthView0 (calls w) = Some (depthTexture env0)
    ∧ ∀ encoder d pass,
        beginRenderPass encoder d pass ∈ calls w →
        ∃ c view texture,
          colorAttachments d = [c]
          ∧ attachment c = Some view
          ∧ createView texture view ∈ calls w
          ∧ getCurrentTexture (swapChain env0) texture ∈ calls w
          ∧ depth_attachment (depthStencilAttachment d) = depthView0.
Proof.
  destruct (session_trace cubeVertices canvas useWGSL img clock) as (w & Hs & Hc & _).
  exists w. split; [exact Hs|]. rewrite Hc. split.
  { apply find_call_app. rewrite init_calls_eq. reflexivity. }
  intros encoder d pass Hin. apply elem_of_app in Hin as [Hin|Hin].
  { rewrite init_calls_eq in Hin.
    repeat (apply elem_of_cons in Hin as [Hin|Hin]; [discriminate Hin|]).
    destruct (not_elem_of_nil _ Hin). }
  apply elem_of_concat in Hin as (l & Hin & Hl).
  destruct (session_frames_elem _ _ _ _ Hl) as (M & h' & ->).
  assert (∀ c, c ∈ frame_calls env0 (f32x16 M)
                     (renderPassDescriptor_state (Some (S h')) depthView0) h' →
               c ∈ init_calls cubeVertices canvas useWGSL img
                   ++ concat (session_frames canvas 18%nat clock)) as Hsub.
  { intros c Hc'. apply elem_of_app. right. apply elem_of_concat. eauto. }
  unfold frame_calls in Hin.
  repeat (apply elem_of_cons in Hin as [Hin|Hin]; [try discriminate Hin|]);
    [|destruct (not_elem_of_nil _ Hin)].
  injection Hin as -> -> ->.
  eexists _, (S h'), h'. split; [reflexivity|]. split; [reflexivity|].
  split; [|split; [|reflexivity]]; apply Hsub; unfold frame_calls; repeat constructor.
Qed.



End SessionProperties.

Section Order.
Context `{JSMath} `{GlMatrix}.
Variable cubeVertices : vec cube.Vertex cube.cubeVertexCount.

Lemma record_all_app st (l1 l2 : list GPUCall) :
  record_all st (l1 ++ l2)
  = match record_all st l1 with Some st' => record_all st' l2 | None => None end.
Proof.
  revert st. induction l1 as [|c l1 IH]; intros st; [done|].
  cbn. destruct (record st c); [apply IH|done].
Qed.

Lemma record_frame data d h :
  record_all idle (frame_calls env0 data d h) = Some idle.
Proof.
  unfold frame_calls, idle.
  repeat (unfold on_pass; cbn;
          first [ rewrite decide_True by (split; reflexivity)
                | rewrite decide_True by reflexivity
                | rewrite decide_False by (apply not_elem_of_nil) ]).
  reflexivity.
Qed.

Lemma record_frames canvas clock :
  ∀ h, record_all idle (concat (session_frames canvas h clock)) = Some idle.
Proof.
  induction clock as [|t clock IH]; intros h; [done|].
  cbn [session_frames concat]. by rewrite record_all_app, record_frame.
Qed.

(** X6: the recorder accepts every call of a session, in order: the vertex
    buffer is filled while mapped and unmapped before anything is
    submitted; in every frame the pass is begun on the open encoder, the
    pipeline, the bind group and the vertex buffer are set on the open pass
    before the draw, the pass is ended before the encoder is finished, and
    exactly the finished command buffer is submitted.  Between frames
    nothing is left open.  (The recorder does refuse a draw without a vertex
    buffer, a finish with an open pass and a submit of an unfinished
    buffer.) *)
Theorem session_in_order canvas useWGSL img clock :
  ∃ w, session cubeVertices canvas useWGSL img clock = Some (env0, w)
    ∧ record_all idle (init_calls cubeVertices canvas useWGSL img) = Some idle
    ∧ record_all idle (calls w) = Some idle
    ∧ (∀ d, record_all idle
              [ createCommandEncoder 0; beginRenderPass 0 d 1; setPipeline 1 9;
                setBindGroup 1 0 17; draw 1 36 1 0 0 ]%nat = None)
    ∧ (∀ d, record_all idle
              [ createCommandEncoder 0; beginRenderPass 0 d 1; finish 0 2 ]%nat = None)
    ∧ record_all idle [ createCommandEncoder 0; submit [0] ]%nat = None.
Proof.
  destruct (session_trace cubeVertices canvas useWGSL img clock) as (w & Hs & Hc & _).
  assert (record_all idle (init_calls cubeVertices canvas useWGSL img) = Some idle) as Hi.
  { rewrite init_calls_eq. vm_compute. reflexivity. }
  exists w. split; [exact Hs|]. split; [exact Hi|].
  split; [by rewrite Hc, record_all_app, Hi, record_frames|].
  split; [intros d; vm_compute; reflexivity|].
  split; [intros d; vm_compute; reflexivity|].
  vm_compute. reflexivity.
Qed.

End Order.

Section InitWiring.
Context `{JSMath} `{GlMatrix}.
Variable cubeVertices : vec cube.Vertex cube.cubeVertexCount.

(** X7: the bind group that [init] creates fits the layout it is created
    for, the first bind group layout of the pipeline's layout: the bindings
    are 0, 1 and 2; binding 0 is the uniform buffer, which has the UNIFORM
    usage; binding 1 is the sampler; binding 2 is a view of the cube texture,
    which has the SAMPLED usage and a color format. *)
Theorem bind_group_fits_layout canvas useWGSL img :
  ∃ w d les view,
    init cubeVertices canvas useWGSL img World0 = Some (env0, w)
    ∧ bind_group_descriptor (uniformBindGroup env0) (calls w) = Some d
    ∧ layout_entries (group_layout d) (calls w) = Some les
    ∧ Forall2 (fits_layout (calls w)) les (entries d)
    ∧ map layout_binding les = [0; 1; 2]
    ∧ map resource (entries d)
      = [ resource_buffer (uniformBuffer env0); resource_sampler (sampler env0);
          resource_view view ]
    ∧ view_texture view (calls w) = Some (cubeTexture env0).
Proof.
  eexists _, _, _, _. split; [apply init_spec|]. cbn [calls]. rewrite init_calls_eq.
  split; [reflexivity|]. split; [reflexivity|].
  split.
  { unfold bindGroupLayout_entries. cbn [entries].
    constructor; [|constructor; [|constructor; [|constructor]]];
      (split; [reflexivity|]); cbn [layout_resource resource].
    - eexists. split; reflexivity.
    - eexists. reflexivity.
    - eexists _, _. split; [reflexivity|]. split; [reflexivity|]. split; [reflexivity|].
      discriminate. }
  split; [reflexivity|]. split; [reflexivity|]. reflexivity.
Qed.

(** X8: the targets that [init] sets up agree with each other: the
    pipeline's color target has the swap chain's format; its depth-stencil
    format is that of the texture behind the descriptor's depth attachment,
    which is as large as the canvas and has the RENDER_ATTACHMENT usage; the
    cube texture is as large as the decoded image. *)
Theorem targets_agree canvas useWGSL img :
  ∃ w pd sd dd cd d,
    init cubeVertices canvas useWGSL img World0 = Some (env0, w)
    ∧ pipeline_descriptor_of (pipeline env0) (calls w) = Some pd
    ∧ swap_chain_descriptor (swapChain env0) (calls w) = Some sd
    ∧ targets (fragment pd) = [swap_format sd]
    ∧ store w !! renderPassDescriptor env0 = Some (descriptor d)
    ∧ view_texture (depth_attachment (depthStencilAttachment d)) (calls w)
      = Some (depthTexture env0)
    ∧ texture_descriptor (depthTexture env0) (calls w) = Some dd
    ∧ depth_format (depthStencil pd) = tex_format dd
    ∧ extent_dims (tex_size dd) = [canvas_width canvas; canvas_height canvas; 1%N]
    ∧ has_usage GPUTextureUsage.RENDER_ATTACHMENT (tex_usage dd)
    ∧ texture_descriptor (cubeTexture env0) (calls w) = Some cd
    ∧ extent_dims (tex_size cd) = [bitmap_width img; bitmap_height img; 1%N].
Proof.
  eexists _, _, _, _, _, _. split; [apply init_spec|]. cbn [calls store].
  rewrite init_calls_eq.
  split; [reflexivity|]. split; [reflexivity|]. split; [reflexivity|].
  split; [by rewrite lookup_insert_eq|].
  split; [reflexivity|]. split; [reflexivity|]. split; [reflexivity|].
  split; [reflexivity|]. split; [reflexivity|]. split; reflexivity.
Qed.

(** X9: whichever dialect is chosen, the pipeline's vertex stage runs a
    source written for the vertex stage and its fragment stage one written
    for the fragment stage, both in the chosen dialect and both entered at
    "main"; a GLSL source, and only a GLSL source, is handed to the GLSL
    compiler, for the stage it is used in. *)
Theorem shader_modules_match_stages canvas useWGSL img :
  ∃ w pd vd fd,
    init cubeVertices canvas useWGSL img World0 = Some (env0, w)
    ∧ pipeline_descriptor_of (pipeline env0) (calls w) = Some pd
    ∧ shader_module_descriptor (vertex_module (vertex pd)) (calls w) = Some vd
    ∧ shader_module_descriptor (fragment_module (fragment pd)) (calls w) = Some fd
    ∧ code_stage (code vd) = stage_vertex
    ∧ code_stage (code fd) = stage_fragment
    ∧ code_dialect (code vd) = (if useWGSL then WGSL_source else GLSL_source)
    ∧ code_dialect (code fd) = (if useWGSL then WGSL_source else GLSL_source)
    ∧ transform vd = (if useWGSL then None else Some (code_stage (code vd)))
    ∧ transform fd = (if useWGSL then None else Some (code_stage (code fd)))
    ∧ vertex_entryPoint (vertex pd) = "main"
    ∧ fragment_entryPoint (fragment pd) = "main".
Proof.
  eexists _, _, _, _. split; [apply init_spec|]. cbn [calls]. rewrite init_calls_eq.
  split; [reflexivity|]. split; [reflexivity|]. split; [reflexivity|].
  destruct useWGSL; repeat split.
Qed.

(** X10: the declarations of the shaders agree with what [init] builds, in
    both dialects: the vertex attributes have the locations and types of the
    vertex stage's inputs; the vertex stage's outputs are the fragment
    stage's inputs; the fragment stage has one output per color target; and
    the resources each stage declares in group 0 are the entries of the
    bind group layout visible to that stage. *)
Theorem shader_interfaces_match canvas useWGSL img :
  ∃ w pd vd fd les attrs,
    init cubeVertices canvas useWGSL img World0 = Some (env0, w)
    ∧ pipeline_descriptor_of (pipeline env0) (calls w) = Some pd
    ∧ shader_module_descriptor (vertex_module (vertex pd)) (calls w) = Some vd
    ∧ shader_module_descriptor (fragment_module (fragment pd)) (calls w) = Some fd
    ∧ buffers (vertex pd) = [ {| arrayStride := cube.cubeVertexSize; attributes := attrs |} ]
    ∧ map (λ a, (shaderLocation a, format_type (format a))) attrs
      = map (λ i, (i.1, Some i.2)) (inputs (shader_interface (code vd)))
    ∧ outputs (shader_interface (code vd)) = inputs (shader_interface (code fd))
    ∧ length (outputs (shader_interface (code fd))) = length (targets (fragment pd))
    ∧ (ls ← pipeline_layout_groups (layout pd) (calls w);
       l ← ls !! 0%nat;
       created_layout_entries l (calls w)) = Some les
    ∧ visible_resources (stage_bit stage_vertex) les
      = resources (shader_interface (code vd))
    ∧ visible_resources (stage_bit stage_fragment) les
      = resources (shader_interface (code fd)).
Proof.
  eexists _, _, _, _, _, _. split; [apply init_spec|]. cbn [calls]. rewrite init_calls_eq.
  split; [reflexivity|]. split; [reflexivity|]. split; [reflexivity|].
  split; [reflexivity|].
  destruct useWGSL; repeat split.
Qed.

End InitWiring.

Section MoreWitnesses.
Local Existing Instance Reference.gl_matrix.
Local Existing Instance Reference.math.

Lemma getTransformationMatrix_fresh_witness :
  ∃ result w',
    getTransformationMatrix env0 0
      {| store := {[ 0%nat := typed (@f32x16 Reference.gl_matrix Reference.identity) ]}; next_loc := 1%nat;
         next_handle := 0%nat; calls := [] |} = Some (result, w')
    ∧ result ≠ projectionMatrix env0
    ∧ store w' !! projectionMatrix env0 = Some (typed (@f32x16 Reference.gl_matrix Reference.identity))
    ∧ calls w' = [].
Proof.
  destruct (@getTransformationMatrix_fresh Reference.math Reference.gl_matrix env0 0 0
              {| store := {[ 0%nat := typed (@f32x16 Reference.gl_matrix Reference.identity) ]}; next_loc := 1%nat;
                 next_handle := 0%nat; calls := [] |} Reference.identity)
    as (result & w' & Hrun & Hnew & _ & Hold & Hcalls & _).
  - apply lookup_singleton_eq.
  - intros l [x Hl]. cbn in Hl. apply lookup_singleton_Some in Hl as [<- _]. cbn. lia.
  - exists result, w'. split; [exact Hrun|]. split; [|split; [|exact Hcalls]].
    + intros ->. cbn in Hnew. rewrite lookup_singleton_eq in Hnew. discriminate Hnew.
    + rewrite Hold; [apply lookup_singleton_eq|]. cbn. rewrite lookup_singleton_eq. by eexists.
Defined.


End MoreWitnesses.
